(** * City configuration manager of BIZWIZ (city_config.py), shallow embedding

    The module keeps a dictionary city_id -> CityConfiguration and a
    current_city pointer, persisted as YAML (yaml.dump on save, yaml.safe_load
    on load).  Python values are dynamically typed, so dataclass fields hold
    arbitrary Python values; the embedding keeps that.  Methods of
    CityConfigManager mutate the object and the file system and may raise;
    they are modelled in a state-and-exception monad whose state survives an
    exception, as Python's does. *)

From Stdlib Require Import ZArith Ascii String List Bool PrimFloat SpecFloat FloatOps Lia.
Import ListNotations.
Set Warnings "-inexact-float -register-all".
Open Scope string_scope.
Open Scope list_scope.

(** ** Python values *)

Inductive pyval : Type :=
| PNone
| PInt (z : Z)
| PFloat (f : float)
| PStr (s : string)
| PList (l : list pyval)
| PTuple (l : list pyval)
| PDict (d : list (string * pyval)).

(** Exceptions that can arise in the module.  [Unmodelled] marks inputs the
    embedding does not cover (noted where it is used). *)
Inductive exn : Type :=
| IOError
| YAMLError
| ConstructorError
| KeyError
| TypeError
| AttributeError
| ZeroDivisionError
| ValueError
| OverflowError
| Unmodelled.

Inductive res (A : Type) : Type :=
| Ok (a : A)
| Err (e : exn).
Arguments Ok {A} a.
Arguments Err {A} e.

Definition res_bind {A B} (r : res A) (f : A -> res B) : res B :=
  match r with Ok a => f a | Err e => Err e end.
Notation "x <-? r ;; k" := (res_bind r (fun x => k))
  (at level 61, r at next level, right associativity).

(** ** Python dicts with string keys, in insertion order

    Dictionary keys are strings throughout (the [Dict[str, ...]] of the
    source's annotations).  Assignment to an existing key keeps its
    position; a new key goes last; keys are unique. *)

Definition dict (A : Type) := list (string * A).

Fixpoint dict_get {A} (k : string) (d : dict A) : option A :=
  match d with
  | [] => None
  | (k', v) :: t => if String.eqb k k' then Some v else dict_get k t
  end.

Definition dict_mem {A} (k : string) (d : dict A) : bool :=
  match dict_get k d with Some _ => true | None => false end.

Fixpoint dict_set {A} (k : string) (v : A) (d : dict A) : dict A :=
  match d with
  | [] => [(k, v)]
  | (k', v') :: t =>
      if String.eqb k k' then (k', v) :: t else (k', v') :: dict_set k v t
  end.

(** [del d[k]]: keys are unique, so removing every entry under [k] removes
    the one entry. *)
Fixpoint dict_del {A} (k : string) (d : dict A) : dict A :=
  match d with
  | [] => []
  | (k', v') :: t =>
      if String.eqb k k' then dict_del k t else (k', v') :: dict_del k t
  end.

Definition dict_keys {A} (d : dict A) : list string := map fst d.

(** ** YAML documents

    A file is either text the YAML parser rejects, or a document; a
    document is held as the node tree it encodes (the emitter writes
    exactly the tree it is given and the parser reads it back).  An empty
    file is the document [YNull] (yaml.safe_load returns None).  [YPyTuple]
    is a sequence carrying the tag !!python/tuple. *)

Inductive ynode : Type :=
| YNull
| YInt (z : Z)
| YFloat (f : float)
| YStr (s : string)
| YSeq (l : list ynode)
| YMap (m : list (string * ynode))
| YPyTuple (l : list ynode).

Inductive fcontent : Type :=
| Unparseable
| Doc (d : ynode).

(** yaml.dump's key sorting (sort_keys=True): sorted by key. *)
Fixpoint insert_key {A} (p : string * A) (l : list (string * A)) :=
  match l with
  | [] => [p]
  | q :: t => if String.leb (fst p) (fst q) then p :: q :: t else q :: insert_key p t
  end.

Fixpoint sort_keys {A} (l : list (string * A)) : list (string * A) :=
  match l with
  | [] => []
  | p :: t => insert_key p (sort_keys t)
  end.

(** yaml.dump with the default (full) Dumper: a tuple is represented as a
    sequence tagged !!python/tuple. *)
Fixpoint yaml_dump (v : pyval) : ynode :=
  match v with
  | PNone => YNull
  | PInt z => YInt z
  | PFloat f => YFloat f
  | PStr s => YStr s
  | PList l => YSeq (map yaml_dump l)
  | PTuple l => YPyTuple (map yaml_dump l)
  | PDict d => YMap (sort_keys (map (fun kv => (fst kv, yaml_dump (snd kv))) d))
  end.

Fixpoint res_map {A B} (f : A -> res B) (l : list A) : res (list B) :=
  match l with
  | [] => Ok []
  | x :: t => y <-? f x ;; ys <-? res_map f t ;; Ok (y :: ys)
  end.

(** Building a mapping node's dict: each pair is assigned in order, so a
    repeated key keeps the last value. *)
Fixpoint build_map {A} (f : A -> res pyval) (m : list (string * A))
  (acc : dict pyval) : res (dict pyval) :=
  match m with
  | [] => Ok acc
  | kx :: t => y <-? f (snd kx) ;; build_map f t (dict_set (fst kx) y acc)
  end.

(** yaml.safe_load: SafeConstructor has no constructor for python/* tags. *)
Fixpoint safe_load (n : ynode) : res pyval :=
  match n with
  | YNull => Ok PNone
  | YInt z => Ok (PInt z)
  | YFloat f => Ok (PFloat f)
  | YStr s => Ok (PStr s)
  | YSeq l => ys <-? res_map safe_load l ;; Ok (PList ys)
  | YMap m => d <-? build_map safe_load m [] ;; Ok (PDict d)
  | YPyTuple _ => Err ConstructorError
  end.

Definition read_yaml (c : fcontent) : res pyval :=
  match c with
  | Unparseable => Err YAMLError
  | Doc n => safe_load n
  end.

(** ** The dataclasses (fields hold any Python value: dataclasses do not
    check types) *)

Record CityBounds := {
  min_lat : pyval; max_lat : pyval; min_lon : pyval; max_lon : pyval;
  center_lat : pyval; center_lon : pyval; grid_spacing : pyval }.

Record CityDemographics := {
  typical_population_range : pyval; typical_income_range : pyval;
  typical_age_range : pyval; population_density_factor : pyval }.

Record CityMarketData := {
  state_code : pyval; county_name : pyval; city_name_variations : pyval;
  rental_api_city_name : pyval; major_universities : pyval;
  major_employers : pyval }.

Record CityCompetitorData := {
  primary_competitor : pyval; competitor_search_terms : pyval;
  market_saturation_factor : pyval; fast_casual_preference_score : pyval }.

Record CityConfiguration := {
  city_id : pyval; display_name : pyval; bounds : CityBounds;
  demographics : CityDemographics; market_data : CityMarketData;
  competitor_data : CityCompetitorData }.

(** [dataclasses.asdict]: a dict per dataclass, fields in declaration
    order; lists, tuples and dicts are rebuilt with the same contents and
    scalars copied, so a field's value is carried over unchanged. *)
Definition bounds_asdict (b : CityBounds) : pyval :=
  PDict [("min_lat", min_lat b); ("max_lat", max_lat b); ("min_lon", min_lon b);
         ("max_lon", max_lon b); ("center_lat", center_lat b);
         ("center_lon", center_lon b); ("grid_spacing", grid_spacing b)].

Definition demographics_asdict (d : CityDemographics) : pyval :=
  PDict [("typical_population_range", typical_population_range d);
         ("typical_income_range", typical_income_range d);
         ("typical_age_range", typical_age_range d);
         ("population_density_factor", population_density_factor d)].

Definition market_asdict (m : CityMarketData) : pyval :=
  PDict [("state_code", state_code m); ("county_name", county_name m);
         ("city_name_variations", city_name_variations m);
         ("rental_api_city_name", rental_api_city_name m);
         ("major_universities", major_universities m);
         ("major_employers", major_employers m)].

Definition competitor_asdict (c : CityCompetitorData) : pyval :=
  PDict [("primary_competitor", primary_competitor c);
         ("competitor_search_terms", competitor_search_terms c);
         ("market_saturation_factor", market_saturation_factor c);
         ("fast_casual_preference_score", fast_casual_preference_score c)].

(** CityConfiguration.to_dict *)
Definition to_dict (c : CityConfiguration) : pyval :=
  PDict [("city_id", city_id c); ("display_name", display_name c);
         ("bounds", bounds_asdict (bounds c));
         ("demographics", demographics_asdict (demographics c));
         ("market_data", market_asdict (market_data c));
         ("competitor_data", competitor_asdict (competitor_data c))].

(** [data[key]] *)
Definition py_getitem (v : pyval) (k : string) : res pyval :=
  match v with
  | PDict d => match dict_get k d with Some x => Ok x | None => Err KeyError end
  | _ => Err TypeError
  end.

(** [data.get(key)] *)
Definition py_get (v : pyval) (k : string) : res pyval :=
  match v with
  | PDict d => match dict_get k d with Some x => Ok x | None => Ok PNone end
  | _ => Err AttributeError
  end.

(** [d.items()] *)
Definition py_items (v : pyval) : res (dict pyval) :=
  match v with
  | PDict d => Ok d
  | _ => Err AttributeError
  end.

(** Keyword arguments [Cls( **v)]: [v] must be a mapping, every key a
    parameter name; a parameter without default must be given. *)
Definition kwargs (params : list string) (v : pyval) : res (dict pyval) :=
  match v with
  | PDict d =>
      if forallb (fun kv => existsb (String.eqb (fst kv)) params) d
      then Ok d else Err TypeError
  | _ => Err TypeError
  end.

Definition kw_required (d : dict pyval) (k : string) : res pyval :=
  match dict_get k d with Some x => Ok x | None => Err TypeError end.

Definition kw_default (d : dict pyval) (k : string) (dflt : pyval) : pyval :=
  match dict_get k d with Some x => x | None => dflt end.

Definition bounds_params : list string :=
  ["min_lat"; "max_lat"; "min_lon"; "max_lon"; "center_lat"; "center_lon";
   "grid_spacing"].

(** [CityBounds( **v)], grid_spacing defaulting to 0.005 *)
Definition mk_bounds (v : pyval) : res CityBounds :=
  d <-? kwargs bounds_params v ;;
  a <-? kw_required d "min_lat" ;; b <-? kw_required d "max_lat" ;;
  c <-? kw_required d "min_lon" ;; e <-? kw_required d "max_lon" ;;
  f <-? kw_required d "center_lat" ;; g <-? kw_required d "center_lon" ;;
  Ok {| min_lat := a; max_lat := b; min_lon := c; max_lon := e;
        center_lat := f; center_lon := g;
        grid_spacing := kw_default d "grid_spacing" (PFloat 0.005%float) |}.

(** [CityDemographics( **v)], population_density_factor defaulting to 1.0 *)
Definition mk_demographics (v : pyval) : res CityDemographics :=
  d <-? kwargs ["typical_population_range"; "typical_income_range";
                "typical_age_range"; "population_density_factor"] v ;;
  a <-? kw_required d "typical_population_range" ;;
  b <-? kw_required d "typical_income_range" ;;
  c <-? kw_required d "typical_age_range" ;;
  Ok {| typical_population_range := a; typical_income_range := b;
        typical_age_range := c;
        population_density_factor :=
          kw_default d "population_density_factor" (PFloat 1.0%float) |}.

(** [CityMarketData( **v)] *)
Definition mk_market (v : pyval) : res CityMarketData :=
  d <-? kwargs ["state_code"; "county_name"; "city_name_variations";
                "rental_api_city_name"; "major_universities";
                "major_employers"] v ;;
  a <-? kw_required d "state_code" ;; b <-? kw_required d "county_name" ;;
  c <-? kw_required d "city_name_variations" ;;
  e <-? kw_required d "rental_api_city_name" ;;
  f <-? kw_required d "major_universities" ;;
  g <-? kw_required d "major_employers" ;;
  Ok {| state_code := a; county_name := b; city_name_variations := c;
        rental_api_city_name := e; major_universities := f;
        major_employers := g |}.

(** [CityCompetitorData( **v)] *)
Definition mk_competitor (v : pyval) : res CityCompetitorData :=
  d <-? kwargs ["primary_competitor"; "competitor_search_terms";
                "market_saturation_factor"; "fast_casual_preference_score"] v ;;
  a <-? kw_required d "primary_competitor" ;;
  b <-? kw_required d "competitor_search_terms" ;;
  c <-? kw_required d "market_saturation_factor" ;;
  e <-? kw_required d "fast_casual_preference_score" ;;
  Ok {| primary_competitor := a; competitor_search_terms := b;
        market_saturation_factor := c; fast_casual_preference_score := e |}.

(** CityConfiguration.from_dict, arguments evaluated in source order *)
Definition from_dict (data : pyval) : res CityConfiguration :=
  cid <-? py_getitem data "city_id" ;;
  dn <-? py_getitem data "display_name" ;;
  bv <-? py_getitem data "bounds" ;; b <-? mk_bounds bv ;;
  dv <-? py_getitem data "demographics" ;; d <-? mk_demographics dv ;;
  mv <-? py_getitem data "market_data" ;; m <-? mk_market mv ;;
  cv <-? py_getitem data "competitor_data" ;; c <-? mk_competitor cv ;;
  Ok {| city_id := cid; display_name := dn; bounds := b; demographics := d;
        market_data := m; competitor_data := c |}.

(** ** The manager and its backing file

    [Manager] is the object's state (configs, current_city; current_city
    holds any Python value, [PNone] being "unset").  [FS] is the backing file
    at [config_file]: its content if it exists, and whether it can be
    opened for writing. *)

Record Manager := {
  configs : dict CityConfiguration;
  current_city : pyval }.

Record FS := {
  file : option fcontent;
  writable : bool }.

Record World := { mgr : Manager; fs : FS }.

(** A method: the state after the call, normal return or raised exception. *)
Definition M (A : Type) := World -> res A * World.

Definition ret {A} (a : A) : M A := fun w => (Ok a, w).

Definition bind {A B} (m : M A) (f : A -> M B) : M B :=
  fun w => match m w with
           | (Ok a, w') => f a w'
           | (Err e, w') => (Err e, w')
           end.

Notation "x <- m ;; k" := (bind m (fun x => k))
  (at level 61, m at next level, right associativity).
Notation "m ;;; k" := (bind m (fun _ => k))
  (at level 61, right associativity).

Definition lift {A} (r : res A) : M A := fun w => (r, w).
Definition raise {A} (e : exn) : M A := fun w => (Err e, w).
Definition get_mgr : M Manager := fun w => (Ok (mgr w), w).
Definition get_fs : M FS := fun w => (Ok (fs w), w).
Definition put_mgr (m : Manager) : M unit :=
  fun w => (Ok tt, {| mgr := m; fs := fs w |}).
Definition put_fs (f : FS) : M unit :=
  fun w => (Ok tt, {| mgr := mgr w; fs := f |}).

(** [try: m except Exception: h] *)
Definition try_except {A} (m : M A) (h : exn -> M A) : M A :=
  fun w => match m w with
           | (Err e, w') => h e w'
           | r => r
           end.

Definition set_current (c : pyval) : M unit :=
  m <- get_mgr ;; put_mgr {| configs := configs m; current_city := c |}.

Definition set_configs (cs : dict CityConfiguration) : M unit :=
  m <- get_mgr ;; put_mgr {| configs := cs; current_city := current_city m |}.

(** The dict written by save_configs *)
Definition store_data (m : Manager) : pyval :=
  PDict [("current_city", current_city m);
         ("cities", PDict (map (fun kc => (fst kc, to_dict (snd kc))) (configs m)))].

(** save_configs: [open(config_file, 'w')] raises when the destination is
    not writable (the file is left as it was); otherwise the file is
    replaced by the dump. *)
Definition save_configs : M unit :=
  m <- get_mgr ;;
  f <- get_fs ;;
  if writable f
  then put_fs {| file := Some (Doc (yaml_dump (store_data m))); writable := true |}
  else raise IOError.

(** ** _create_default_configs *)

Definition pf (f : float) : pyval := PFloat f.
Definition pstrs (l : list string) : pyval := PList (map PStr l).
Definition pint2 (a b : Z) : pyval := PTuple [PInt a; PInt b].

Definition competitor_terms : pyval :=
  pstrs ["mcdonalds"; "kfc"; "taco bell"; "burger king"; "subway"; "wendys";
         "popeyes"].

Definition grand_forks : CityConfiguration := {|
  city_id := PStr "grand_forks_nd";
  display_name := PStr "Grand Forks, ND";
  bounds := {| min_lat := pf 47.85; max_lat := pf 47.95;
               min_lon := pf (-97.15); max_lon := pf (-97.0);
               center_lat := pf 47.9; center_lon := pf (-97.075);
               grid_spacing := pf 0.005 |};
  demographics := {| typical_population_range := pint2 3000 12000;
                     typical_income_range := pint2 35000 70000;
                     typical_age_range := pint2 22 45;
                     population_density_factor := pf 1.0 |};
  market_data := {| state_code := PStr "ND";
                    county_name := PStr "Grand Forks County";
                    city_name_variations := pstrs ["Grand Forks"; "Grand Forks ND"];
                    rental_api_city_name := PStr "Grand Forks";
                    major_universities := pstrs ["University of North Dakota"];
                    major_employers := pstrs ["University of North Dakota";
                                              "Altru Health System"] |};
  competitor_data := {| primary_competitor := PStr "chick-fil-a";
                        competitor_search_terms := competitor_terms;
                        market_saturation_factor := pf 0.7;
                        fast_casual_preference_score := pf 0.8 |} |}.

Definition fargo : CityConfiguration := {|
  city_id := PStr "fargo_nd";
  display_name := PStr "Fargo, ND";
  bounds := {| min_lat := pf 46.8; max_lat := pf 46.95;
               min_lon := pf (-96.9); max_lon := pf (-96.7);
               center_lat := pf 46.875; center_lon := pf (-96.8);
               grid_spacing := pf 0.005 |};
  demographics := {| typical_population_range := pint2 5000 18000;
                     typical_income_range := pint2 40000 80000;
                     typical_age_range := pint2 25 40;
                     population_density_factor := pf 1.2 |};
  market_data := {| state_code := PStr "ND";
                    county_name := PStr "Cass County";
                    city_name_variations := pstrs ["Fargo"; "Fargo ND"];
                    rental_api_city_name := PStr "Fargo";
                    major_universities := pstrs ["North Dakota State University"];
                    major_employers := pstrs ["Sanford Health"; "Microsoft";
                                              "North Dakota State University"] |};
  competitor_data := {| primary_competitor := PStr "chick-fil-a";
                        competitor_search_terms := competitor_terms;
                        market_saturation_factor := pf 0.9;
                        fast_casual_preference_score := pf 0.85 |} |}.

Definition bismarck : CityConfiguration := {|
  city_id := PStr "bismarck_nd";
  display_name := PStr "Bismarck, ND";
  bounds := {| min_lat := pf 46.75; max_lat := pf 46.85;
               min_lon := pf (-100.85); max_lon := pf (-100.7);
               center_lat := pf 46.8; center_lon := pf (-100.775);
               grid_spacing := pf 0.005 |};
  demographics := {| typical_population_range := pint2 4000 15000;
                     typical_income_range := pint2 45000 85000;
                     typical_age_range := pint2 28 45;
                     population_density_factor := pf 1.1 |};
  market_data := {| state_code := PStr "ND";
                    county_name := PStr "Burleigh County";
                    city_name_variations := pstrs ["Bismarck"; "Bismarck ND"];
                    rental_api_city_name := PStr "Bismarck";
                    major_universities := pstrs ["University of Mary";
                                                 "Bismarck State College"];
                    major_employers := pstrs ["State of North Dakota";
                                              "Sanford Health"; "Basin Electric"] |};
  competitor_data := {| primary_competitor := PStr "chick-fil-a";
                        competitor_search_terms := competitor_terms;
                        market_saturation_factor := pf 0.8;
                        fast_casual_preference_score := pf 0.75 |} |}.

Definition default_configs : dict CityConfiguration :=
  [("grand_forks_nd", grand_forks); ("fargo_nd", fargo);
   ("bismarck_nd", bismarck)].

Definition _create_default_configs : M unit :=
  set_configs default_configs ;;;
  set_current (PStr "grand_forks_nd") ;;;
  save_configs.

(** ** load_configs *)

Fixpoint for_each {A} (l : list A) (body : A -> M unit) : M unit :=
  match l with
  | [] => ret tt
  | x :: t => body x ;;; for_each t body
  end.

(** [self.configs[city_id] = CityConfiguration.from_dict(city_data)] *)
Definition load_city (kv : string * pyval) : M unit :=
  cfg <- lift (from_dict (snd kv)) ;;
  m <- get_mgr ;;
  set_configs (dict_set (fst kv) cfg (configs m)).

(** The body of the [try] block, on the file's content. *)
Definition load_from (c : fcontent) : M unit :=
  data <- lift (read_yaml c) ;;
  cities <- lift (py_getitem data "cities") ;;
  items <- lift (py_items cities) ;;
  for_each items load_city ;;;
  cur <- lift (py_get data "current_city") ;;
  set_current cur.

Definition load_configs : M unit :=
  f <- get_fs ;;
  match file f with
  | Some c => try_except (load_from c) (fun _ => _create_default_configs)
  | None => _create_default_configs
  end.

(** [CityConfigManager(config_file)]: empty state, then load_configs. *)
Definition empty_manager : Manager := {| configs := []; current_city := PNone |}.

Definition new_manager (f : FS) : res unit * World :=
  load_configs {| mgr := empty_manager; fs := f |}.

(** ** The other methods *)

Definition set_current_city (cid : string) : M bool :=
  m <- get_mgr ;;
  if dict_mem cid (configs m)
  then set_current (PStr cid) ;;; save_configs ;;; ret true
  else ret false.

(** [x == city_id] for a str [city_id] *)
Definition py_eq_str (v : pyval) (s : string) : bool :=
  match v with PStr s' => String.eqb s' s | _ => false end.

(** [if self.current_city and ...]: truthiness of the pointer *)
Definition py_truthy (v : pyval) : bool :=
  match v with
  | PNone => false
  | PInt z => negb (Z.eqb z 0)
  | PFloat f => negb (PrimFloat.eqb f 0%float)
  | PStr s => negb (String.eqb s "")
  | PList l | PTuple l => match l with [] => false | _ => true end
  | PDict d => match d with [] => false | _ => true end
  end.

(** Whether [hash(v)] succeeds: lists and dicts are unhashable, a tuple is
    hashable when its items are. *)
Fixpoint py_hashable (v : pyval) : bool :=
  match v with
  | PList _ | PDict _ => false
  | PTuple l => (fix all (l : list pyval) : bool :=
                   match l with
                   | [] => true
                   | x :: t => py_hashable x && all t
                   end) l
  | _ => true
  end.

(** [self.current_city in self.configs] hashes the pointer (TypeError when
    it is unhashable) and is false for a hashable non-string pointer (the
    keys are str). *)
Definition get_current_config : M (option CityConfiguration) :=
  m <- get_mgr ;;
  if py_truthy (current_city m)
  then if py_hashable (current_city m)
       then match current_city m with
            | PStr s => ret (dict_get s (configs m))
            | _ => ret None
            end
       else raise TypeError
  else ret None.

Definition get_config (cid : string) : M (option CityConfiguration) :=
  m <- get_mgr ;; ret (dict_get cid (configs m)).

Definition list_cities : M (list string) :=
  m <- get_mgr ;; ret (dict_keys (configs m)).

(** add_city: the key is [config.city_id]; a non-string city_id (the
    annotation says str) is outside this model. *)
Definition add_city (c : CityConfiguration) : M unit :=
  match city_id c with
  | PStr k => m <- get_mgr ;; set_configs (dict_set k c (configs m)) ;;; save_configs
  | _ => raise Unmodelled
  end.

Definition remove_city (cid : string) : M bool :=
  m <- get_mgr ;;
  if dict_mem cid (configs m)
  then
    set_configs (dict_del cid (configs m)) ;;;
    m' <- get_mgr ;;
    (if py_eq_str (current_city m') cid
     then set_current (match dict_keys (configs m') with
                       | k :: _ => PStr k
                       | [] => PNone
                       end)
     else ret tt) ;;;
    save_configs ;;;
    ret true
  else ret false.

(** ** CityBounds.get_grid_points and numpy.arange on floats *)

Definition Z_to_float (z : Z) : float :=
  SF2Prim (binary_normalize prec emax z 0 false).

(** Ceiling of a finite double as an integer; [None] for inf and nan. *)
Definition float_ceil (x : float) : option Z :=
  match Prim2SF x with
  | S754_zero _ => Some 0%Z
  | S754_finite s m e =>
      if (0 <=? e)%Z then Some (cond_Zopp s (Z.shiftl (Zpos m) e))
      else if s then Some (- (Zpos m / 2 ^ (- e)))%Z
      else Some (- ((- Zpos m) / 2 ^ (- e)))%Z
  | _ => None
  end.

(** numpy's fill of a float range from its first two entries:
    [buffer[i] = start + i*delta] for [i >= 2], delta = buffer[1]-buffer[0]. *)
Definition arange_fill (start delta : float) (n : nat) : list float :=
  map (fun i => (start + Z_to_float (Z.of_nat i) * delta)%float) (seq 2 n).

(** The largest [npy_intp] on a 64-bit platform. *)
Definition NPY_MAX_INTP : Z := 2 ^ 63 - 1.

(** The sign bit of a double (used on zeros). *)
Definition signbit (x : float) : bool :=
  match Prim2SF x with
  | S754_zero s | S754_infinity s | S754_finite s _ _ => s
  | S754_nan => false
  end.

(** numpy's [_arange_safe_ceil_to_intp]: [npy_ceil(value)], ValueError for
    nan, OverflowError when the ceiling compares outside
    [[(double)NPY_MIN_INTP, (double)NPY_MAX_INTP]] = [[-2^63, 2^63]]
    (an infinity included).  A ceiling of exactly [2^63] passes the check
    and the C cast to [npy_intp] is then undefined: [Unmodelled]. *)
Definition arange_safe_ceil_to_intp (value : float) : res Z :=
  match float_ceil value with
  | None => if PrimFloat.is_nan value then Err ValueError else Err OverflowError
  | Some n =>
      if ((- 2 ^ 63 <=? n) && (n <=? 2 ^ 63))%Z
      then if (n =? 2 ^ 63)%Z then Err Unmodelled else Ok n
      else Err OverflowError
  end.

(** numpy's [_calc_length] on floats: [next = stop - start],
    [val = next / step] (Python division: ZeroDivisionError for a zero
    step); a zero quotient of a nonzero difference (underflow, or an
    infinite step) gives length 0 when its sign bit is set and 1 otherwise;
    else the safe ceiling of the quotient. *)
Definition calc_length (start stop step : float) : res Z :=
  if PrimFloat.eqb step 0%float then Err ZeroDivisionError else
  let next := (stop - start)%float in
  let val := (next / step)%float in
  if PrimFloat.eqb val 0%float && negb (PrimFloat.eqb next 0%float)
  then Ok (if signbit val then 0 else 1)%Z
  else arange_safe_ceil_to_intp val.

(** [np.arange(start, stop, step)] for float arguments
    ([PyArray_ArangeObj]): an empty array for a length that is not
    positive; allocating [length] doubles raises ValueError ("array is too
    big") when [length * 8] overflows [npy_intp], i.e. when
    [length > NPY_MAX_INTP / 8]; the entries are [start], [start + step],
    then the fill.  A failed allocation of an array that is not too big
    (MemoryError) depends on the machine and is outside the model. *)
Definition arange (start stop step : float) : res (list float) :=
  n <-? calc_length start stop step ;;
  if (n <=? 0)%Z then Ok []
  else if (NPY_MAX_INTP / 8 <? n)%Z then Err ValueError
  else if (n =? 1)%Z then Ok [start]
  else let next := (start + step)%float in
       Ok (start :: next :: arange_fill start (next - start)%float (Z.to_nat n - 2)).

(** Bounds are floats by the annotation; other argument types (for which
    numpy picks another dtype) are outside this model. *)
Definition arange_py (start stop step : pyval) : res (list float) :=
  match start, stop, step with
  | PFloat a, PFloat b, PFloat c => arange a b c
  | _, _, _ => Err Unmodelled
  end.

Definition get_grid_points (b : CityBounds) : res (list (float * float)) :=
  lats <-? arange_py (min_lat b) (max_lat b) (grid_spacing b) ;;
  lons <-? arange_py (min_lon b) (max_lon b) (grid_spacing b) ;;
  Ok (flat_map (fun lat => map (fun lon => (lat, lon)) lons) lats).

(** ** Module-level functions of city_config.py (backward compatibility)

    Each of them builds a fresh [CityConfigManager()] on the config file
    and queries it; the file is all they share.  A run gives the result
    (or the exception raised, by the constructor or the query) and the file
    afterwards. *)

Definition with_new_manager {A} (k : M A) (f : FS) : res A * FS :=
  match new_manager f with
  | (Ok _, w) => let '(r, w') := k w in (r, fs w')
  | (Err e, w) => (Err e, fs w)
  end.

Module Compat.

(** [get_city_bounds()]; a configuration object is always truthy. *)
Definition get_city_bounds (f : FS) : res (pyval * pyval * pyval * pyval) * FS :=
  with_new_manager
    (config <- get_current_config ;;
     ret (match config with
          | Some c => (min_lat (bounds c), max_lat (bounds c),
                       min_lon (bounds c), max_lon (bounds c))
          | None => (pf 47.85, pf 47.95, pf (-97.15), pf (-97.0))
          end)) f.

(** [get_grid_points()]: the current configuration's
    [config.bounds.get_grid_points()] (the method, defined above under the
    same name), else the ranges over [get_city_bounds()], which builds a
    second manager on the file, with step 0.005. *)
Definition get_grid_points (f : FS) : res (list (float * float)) * FS :=
  match with_new_manager get_current_config f with
  | (Err e, f1) => (Err e, f1)
  | (Ok (Some config), f1) => (get_grid_points (bounds config), f1)
  | (Ok None, f1) =>
      match get_city_bounds f1 with
      | (Err e, f2) => (Err e, f2)
      | (Ok (min_lat, max_lat, min_lon, max_lon), f2) =>
          ((lats <-? arange_py min_lat max_lat (pf 0.005) ;;
            lons <-? arange_py min_lon max_lon (pf 0.005) ;;
            Ok (flat_map (fun lat => map (fun lon => (lat, lon)) lons) lats)), f2)
      end
  end.

(** [get_current_city_name()] *)
Definition get_current_city_name (f : FS) : res pyval * FS :=
  with_new_manager
    (config <- get_current_config ;;
     ret (match config with
          | Some c => display_name c
          | None => PStr "Grand Forks, ND"
          end)) f.

End Compat.

(** * enhanced_visualization_app.py: loading the processed data *)

(** The processed cache files, by path: absent ([None]), present with a
    content whose [open]/[pickle.load] raises, or present with the unpickled
    object.  A DataFrame inside that object is represented by the list of its
    rows: the loader only takes its [len]. *)
Definition PklFS := string -> option (res pyval).

(** [os.path.join(f"cache_{city_id}", 'processed_location_data.pkl')] *)
Definition processed_data_file (city_id : string) : string :=
  String.append (String.append "cache_" city_id) "/processed_location_data.pkl".

(** [os.path.exists(path)] *)
Definition path_exists (pkl : PklFS) (p : string) : bool :=
  match pkl p with Some _ => true | None => false end.

(** [len(v)] (only success or failure matters here) *)
Definition py_len (v : pyval) : res Z :=
  match v with
  | PStr s => Ok (Z.of_nat (String.length s))
  | PList l | PTuple l => Ok (Z.of_nat (length l))
  | PDict d => Ok (Z.of_nat (length d))
  | _ => Err TypeError
  end.

Record EnhancedDataLoader := {
  city_manager : World;
  current_data : pyval;
  current_city_id : pyval }.

(** [EnhancedDataLoader()]: a [CityConfigManager()] on the config file; an
    exception of the constructor propagates. *)
Definition new_loader (f : FS) : res EnhancedDataLoader :=
  match new_manager f with
  | (Ok _, w) => Ok {| city_manager := w; current_data := PNone; current_city_id := PNone |}
  | (Err e, _) => Err e
  end.

(** [load_city_data(city_id)]: the returned value and the loader after the
    call.  The [try] block assigns the cache before it prints
    [len(data['df_filtered'])]; any exception in it is caught and gives
    [None]. *)
Definition load_city_data (pkl : PklFS) (city_id : string) (self : EnhancedDataLoader)
  : pyval * EnhancedDataLoader :=
  if py_eq_str (current_city_id self) city_id && py_truthy (current_data self)
  then (current_data self, self)
  else
    match pkl (processed_data_file city_id) with
    | None => (PNone, self)
    | Some (Err _) => (PNone, self)
    | Some (Ok data) =>
        let self' := {| city_manager := city_manager self; current_data := data;
                        current_city_id := PStr city_id |} in
        match (df <-? py_getitem data "df_filtered" ;; py_len df) with
        | Ok _ => (data, self')
        | Err _ => (PNone, self')
        end
    end.

(** The dict appended by get_available_cities. *)
Definition available_entry (city_id : string) (config : CityConfiguration) : pyval :=
  PDict [("city_id", PStr city_id); ("display_name", display_name config);
         ("file_path", PStr (processed_data_file city_id))].

(** The loop of get_available_cities over the listed ids; a missing
    configuration would fail on [config.display_name]. *)
Fixpoint collect_available (pkl : PklFS) (ids : list string) : M (list pyval) :=
  match ids with
  | [] => ret []
  | city_id :: t =>
      hd <- (if path_exists pkl (processed_data_file city_id)
             then config <- get_config city_id ;;
                  match config with
                  | Some c => ret [available_entry city_id c]
                  | None => raise AttributeError
                  end
             else ret []) ;;
      rest <- collect_available pkl t ;;
      ret (hd ++ rest)
  end.

(** [get_available_cities()]; the manager's methods it calls only read. *)
Definition get_available_cities (pkl : PklFS) (self : EnhancedDataLoader) : res (list pyval) :=
  fst ((ids <- list_cities ;; collect_available pkl ids) (city_manager self)).

(** What the module does when imported, up to the creation of the app:
    build the loader, list the available cities, [exit(1)] when there is
    none, load the first one, [exit(1)] when that gives nothing. *)
Inductive startup : Type :=
| Raised (e : exn)
| Exit1
| Started (initial_city : string) (data : pyval) (loader : EnhancedDataLoader).

(** [available_cities[0]['city_id']] is the str stored by
    get_available_cities; the other branches cannot be taken. *)
Definition app_startup (f : FS) (pkl : PklFS) : startup :=
  match new_loader f with
  | Err e => Raised e
  | Ok data_loader =>
      match get_available_cities pkl data_loader with
      | Err e => Raised e
      | Ok [] => Exit1
      | Ok (first :: _) =>
          match py_getitem first "city_id" with
          | Ok (PStr initial_city) =>
              let '(current_data, data_loader') := load_city_data pkl initial_city data_loader in
              if py_truthy current_data then Started initial_city current_data data_loader'
              else Exit1
          | Ok _ => Raised Unmodelled
          | Err e => Raised e
          end
      end
  end.

(** ** update_city_data: the slider settings

    The columns of [df_filtered] it reads are float64 Series. *)

(** [Series.max()]: NaN entries skipped, NaN when none is left. *)
Definition series_max (xs : list float) : float :=
  match fold_left (fun acc x =>
                     if PrimFloat.is_nan x then acc
                     else match acc with
                          | None => Some x
                          | Some a => if PrimFloat.ltb a x then Some x else Some a
                          end) xs None with
  | Some a => a
  | None => nan
  end.

(** [int(x)] of a float: truncation toward zero; NaN raises ValueError;
    an infinity raises OverflowError. *)
Definition py_int_of_float (x : float) : res Z :=
  match Prim2SF x with
  | S754_zero _ => Ok 0%Z
  | S754_finite s m e =>
      Ok (cond_Zopp s (if (0 <=? e)%Z then Z.shiftl (Zpos m) e else Zpos m / 2 ^ (- e)))
  | S754_nan => Err ValueError
  | S754_infinity _ => Err OverflowError
  end.

(** [f'{n:,}'] for an int: decimal digits grouped by three with commas. *)
Fixpoint uint_chars (d : Decimal.uint) : list Ascii.ascii :=
  match d with
  | Decimal.Nil => []
  | Decimal.D0 t => "0"%char :: uint_chars t
  | Decimal.D1 t => "1"%char :: uint_chars t
  | Decimal.D2 t => "2"%char :: uint_chars t
  | Decimal.D3 t => "3"%char :: uint_chars t
  | Decimal.D4 t => "4"%char :: uint_chars t
  | Decimal.D5 t => "5"%char :: uint_chars t
  | Decimal.D6 t => "6"%char :: uint_chars t
  | Decimal.D7 t => "7"%char :: uint_chars t
  | Decimal.D8 t => "8"%char :: uint_chars t
  | Decimal.D9 t => "9"%char :: uint_chars t
  end.

(** Commas after every three digits, on the digits read from the right. *)
Fixpoint group3 (r : list Ascii.ascii) : list Ascii.ascii :=
  match r with
  | a :: b :: c :: ((_ :: _) as t) => a :: b :: c :: ","%char :: group3 t
  | _ => r
  end.

Definition fmt_thousands (n : Z) : string :=
  String.append (if (n <? 0)%Z then "-" else "")
    (string_of_list_ascii (rev (group3 (rev (uint_chars (N.to_uint (Z.abs_N n))))))).

(** A dict display with int keys: entries in order, a repeated key keeping
    its first position and taking the last value. *)
Fixpoint zdict_set (k : Z) (v : string) (d : list (Z * string)) : list (Z * string) :=
  match d with
  | [] => [(k, v)]
  | (k', v') :: t => if Z.eqb k k' then (k', v) :: t else (k', v') :: zdict_set k v t
  end.

Definition dict_display (kvs : list (Z * string)) : list (Z * string) :=
  fold_left (fun d kv => zdict_set (fst kv) (snd kv) d) kvs [].

Definition revenue_marks (max_revenue : Z) : list (Z * string) :=
  dict_display
    [(0%Z, "0");
     (max_revenue / 4, fmt_thousands (max_revenue / 4));
     (max_revenue / 2, fmt_thousands (max_revenue / 2));
     (3 * max_revenue / 4, fmt_thousands (3 * max_revenue / 4));
     (max_revenue, fmt_thousands max_revenue)]%Z.

(** The first statements of update_city_data once the data is loaded:
    [max_revenue], [revenue_marks] and [max_commercial], from the
    predicted_revenue and commercial_traffic_score columns. *)
Definition update_city_data_sliders (predicted_revenue commercial_traffic_score : list float)
  : res (Z * list (Z * string) * Z) :=
  max_revenue <-? py_int_of_float (series_max predicted_revenue) ;;
  let marks := revenue_marks max_revenue in
  max_commercial <-? py_int_of_float (series_max commercial_traffic_score) ;;
  Ok (max_revenue, marks, max_commercial).

(** * Properties *)

(** The top-level node written by save_configs: its two keys, sorted. *)
Lemma yaml_dump_store_data (m : Manager) :
  yaml_dump (store_data m) =
  YMap [("cities", yaml_dump (PDict (map (fun kc => (fst kc, to_dict (snd kc))) (configs m))));
        ("current_city", yaml_dump (current_city m))].
Proof. reflexivity. Qed.

Lemma dict_mem_get {A} (k : string) (d : dict A) :
  dict_mem k d = true <-> exists v, dict_get k d = Some v.
Proof.
  unfold dict_mem; destruct (dict_get k d); split; intros H.
  - eauto.
  - reflexivity.
  - discriminate.
  - destruct H; discriminate.
Qed.

Lemma dict_get_in {A} (k : string) (d : dict A) :
  dict_mem k d = true <-> In k (dict_keys d).
Proof.
  unfold dict_mem, dict_keys; induction d as [|[k' v'] t IH]; simpl.
  - split; [discriminate | tauto].
  - destruct (String.eqb_spec k k') as [->|Hne].
    + split; auto.
    + rewrite IH; split; [auto | intros [H|H]; [congruence | exact H]].
Qed.

(** C9: save_configs writes exactly {cities, current_city}, replacing the
    whole file, when the destination is writable; otherwise it raises
    IOError, the file untouched, and the error reaches the callers
    set_current_city, add_city and remove_city. *)
Theorem save_configs_writes_or_raises (m : Manager) (f : FS) :
  (writable f = true ->
     save_configs {| mgr := m; fs := f |} =
       (Ok tt, {| mgr := m;
                  fs := {| file := Some (Doc (YMap
                             [("cities", yaml_dump (PDict (map (fun kc => (fst kc, to_dict (snd kc))) (configs m))));
                              ("current_city", yaml_dump (current_city m))]));
                           writable := true |} |})) /\
  (writable f = false ->
     save_configs {| mgr := m; fs := f |} = (Err IOError, {| mgr := m; fs := f |}) /\
     (forall k, dict_mem k (configs m) = true ->
        fst (set_current_city k {| mgr := m; fs := f |}) = Err IOError /\
        fst (remove_city k {| mgr := m; fs := f |}) = Err IOError) /\
     (forall c k, city_id c = PStr k ->
        fst (add_city c {| mgr := m; fs := f |}) = Err IOError)).
Proof.
  split.
  - intros Hw. unfold save_configs, bind, get_mgr, get_fs, put_fs; simpl.
    rewrite Hw. reflexivity.
  - intros Hw. repeat split.
    + unfold save_configs, bind, get_mgr, get_fs; simpl. rewrite Hw. reflexivity.
    + unfold set_current_city, bind, get_mgr; simpl. rewrite H; simpl.
      unfold set_current, save_configs, bind, get_mgr, get_fs, put_mgr, raise; simpl.
      rewrite Hw. reflexivity.
    + unfold remove_city, bind, get_mgr; simpl. rewrite H; simpl.
      unfold set_configs, set_current, save_configs, bind, get_mgr, get_fs, put_mgr, ret, raise; simpl.
      destruct (py_eq_str _ k); simpl; rewrite Hw; reflexivity.
    + intros c k Hc. unfold add_city. rewrite Hc.
      unfold set_configs, save_configs, bind, get_mgr, get_fs, put_mgr, raise; simpl.
      rewrite Hw. reflexivity.
Qed.

(** C4: set_current_city of an unknown id returns False and changes nothing
    (neither the object nor the file); of a known id it returns True, points
    current_city at it, keeps the mapping and writes the store. *)
Theorem set_current_city_guard (m : Manager) (f : FS) (cid : string) :
  (dict_mem cid (configs m) = false ->
     set_current_city cid {| mgr := m; fs := f |} = (Ok false, {| mgr := m; fs := f |})) /\
  (dict_mem cid (configs m) = true -> writable f = true ->
     let m' := {| configs := configs m; current_city := PStr cid |} in
     set_current_city cid {| mgr := m; fs := f |} =
       (Ok true, {| mgr := m';
                    fs := {| file := Some (Doc (yaml_dump (store_data m'))); writable := true |} |})).
Proof.
  split.
  - intros Hk. unfold set_current_city, bind, get_mgr, ret; simpl. rewrite Hk. reflexivity.
  - intros Hk Hw. unfold set_current_city, bind, get_mgr; simpl. rewrite Hk.
    unfold set_current, save_configs, bind, get_mgr, get_fs, put_mgr, put_fs, ret; simpl.
    rewrite Hw. reflexivity.
Qed.

Lemma set_current_city_guard_witness :
  let m := {| configs := default_configs; current_city := PStr "grand_forks_nd" |} in
  let f := {| file := None; writable := true |} in
  (dict_mem "nonexistent" (configs m) = false /\
   set_current_city "nonexistent" {| mgr := m; fs := f |} = (Ok false, {| mgr := m; fs := f |})) /\
  (dict_mem "fargo_nd" (configs m) = true /\ writable f = true /\
   fst (set_current_city "fargo_nd" {| mgr := m; fs := f |}) = Ok true).
Proof.
  intros m f. split.
  - split; [reflexivity|].
    apply (proj1 (set_current_city_guard m f "nonexistent")). reflexivity.
  - split; [reflexivity|]. split; [reflexivity|].
    rewrite (proj2 (set_current_city_guard m f "fargo_nd") eq_refl eq_refl). reflexivity.
Defined.

Lemma save_configs_writes_or_raises_witness :
  let m := {| configs := default_configs; current_city := PStr "grand_forks_nd" |} in
  (writable {| file := None; writable := true |} = true /\
   fst (save_configs {| mgr := m; fs := {| file := None; writable := true |} |}) = Ok tt) /\
  (writable {| file := Some Unparseable; writable := false |} = false /\
   save_configs {| mgr := m; fs := {| file := Some Unparseable; writable := false |} |} =
     (Err IOError, {| mgr := m; fs := {| file := Some Unparseable; writable := false |} |})).
Proof.
  intros m. split.
  - split; [reflexivity|].
    rewrite (proj1 (save_configs_writes_or_raises m {| file := None; writable := true |}) eq_refl).
    reflexivity.
  - split; [reflexivity|].
    exact (proj1 (proj2 (save_configs_writes_or_raises m {| file := Some Unparseable; writable := false |}) eq_refl)).
Defined.

(** The file after a successful save of [m]. *)
Definition saved (m : Manager) : FS :=
  {| file := Some (Doc (yaml_dump (store_data m))); writable := true |}.

Lemma dict_keys_del {A} (k : string) (d : dict A) :
  dict_keys (dict_del k d) = filter (fun k' => negb (String.eqb k k')) (dict_keys d).
Proof.
  unfold dict_keys; induction d as [|[k' v'] t IH]; simpl; [reflexivity|].
  destruct (String.eqb k k'); simpl; rewrite IH; reflexivity.
Qed.

Definition first_key (ks : list string) : pyval :=
  match ks with k :: _ => PStr k | [] => PNone end.

(** remove_city on a present id, step by step. *)
Lemma remove_city_present (m : Manager) (f : FS) (cid : string) :
  dict_mem cid (configs m) = true ->
  let cs := dict_del cid (configs m) in
  let m' := {| configs := cs;
               current_city := if py_eq_str (current_city m) cid
                               then first_key (dict_keys cs)
                               else current_city m |} in
  remove_city cid {| mgr := m; fs := f |} =
    if writable f then (Ok true, {| mgr := m'; fs := saved m' |})
    else (Err IOError, {| mgr := m'; fs := f |}).
Proof.
  intros Hk. unfold remove_city, bind, get_mgr; simpl. rewrite Hk.
  unfold set_configs, set_current, save_configs, saved, bind, get_mgr, get_fs,
    put_mgr, put_fs, ret, raise; simpl.
  destruct (py_eq_str (current_city m) cid); simpl;
    destruct (writable f); reflexivity.
Qed.

Lemma remove_city_absent (m : Manager) (f : FS) (cid : string) :
  dict_mem cid (configs m) = false ->
  remove_city cid {| mgr := m; fs := f |} = (Ok false, {| mgr := m; fs := f |}).
Proof.
  intros Hk. unfold remove_city, bind, get_mgr, ret; simpl. rewrite Hk. reflexivity.
Qed.

(** C10: removing the current city points current_city at the first of the
    remaining keys in insertion order (unset when none is left); removing
    another id keeps current_city; an unknown id returns False and touches
    neither the object nor the file. *)
Theorem remove_city_first_remaining (m : Manager) (f : FS) (cid : string) :
  (dict_mem cid (configs m) = false ->
     remove_city cid {| mgr := m; fs := f |} = (Ok false, {| mgr := m; fs := f |})) /\
  (dict_mem cid (configs m) = true ->
     let m' := mgr (snd (remove_city cid {| mgr := m; fs := f |})) in
     dict_keys (configs m') = filter (fun k => negb (String.eqb cid k)) (dict_keys (configs m)) /\
     (py_eq_str (current_city m) cid = true ->
        current_city m' = first_key (filter (fun k => negb (String.eqb cid k)) (dict_keys (configs m)))) /\
     (py_eq_str (current_city m) cid = false -> current_city m' = current_city m)).
Proof.
  split.
  - apply remove_city_absent.
  - intros Hk. simpl. rewrite (remove_city_present m f cid Hk).
    destruct (writable f); simpl; rewrite dict_keys_del;
      (split; [reflexivity | split; intros Hc; rewrite Hc; reflexivity]).
Qed.

Lemma remove_city_first_remaining_witness :
  let m := {| configs := default_configs; current_city := PStr "grand_forks_nd" |} in
  let f := {| file := None; writable := true |} in
  (dict_mem "nowhere" (configs m) = false /\
   remove_city "nowhere" {| mgr := m; fs := f |} = (Ok false, {| mgr := m; fs := f |})) /\
  (dict_mem "grand_forks_nd" (configs m) = true /\
   py_eq_str (current_city m) "grand_forks_nd" = true /\
   current_city (mgr (snd (remove_city "grand_forks_nd" {| mgr := m; fs := f |}))) = PStr "fargo_nd").
Proof.
  intros m f. split.
  - split; [reflexivity|]. apply (proj1 (remove_city_first_remaining m f "nowhere")). reflexivity.
  - split; [reflexivity|]. split; [reflexivity|].
    destruct (proj2 (remove_city_first_remaining m f "grand_forks_nd") eq_refl) as [_ [H _]].
    rewrite (H eq_refl). reflexivity.
Defined.

(** The store's pointer invariant of the data model: current_city is unset
    or one of the keys. *)
Definition valid_pointer (m : Manager) : Prop :=
  current_city m = PNone \/
  exists k, current_city m = PStr k /\ In k (dict_keys (configs m)).

Lemma In_filter_neq (cid k : string) (ks : list string) :
  In k ks -> k <> cid -> In k (filter (fun k' => negb (String.eqb cid k')) ks).
Proof.
  intros Hin Hne. apply filter_In. split; [exact Hin|].
  destruct (String.eqb_spec cid k); [congruence | reflexivity].
Qed.

(** C5: remove_city returns whether an entry was deleted and persists;
    when the current city is removed and entries remain, current_city names
    one of them; when the last entry is removed, current_city is unset. *)
Theorem remove_city_reassigns (m : Manager) (f : FS) (cid : string) :
  writable f = true -> valid_pointer m ->
  let r := remove_city cid {| mgr := m; fs := f |} in
  let m' := mgr (snd r) in
  fst r = Ok (dict_mem cid (configs m)) /\
  (dict_mem cid (configs m) = true ->
     fs (snd r) = saved m' /\
     ~ In cid (dict_keys (configs m')) /\
     (current_city m = PStr cid -> dict_keys (configs m') <> [] ->
        exists k, current_city m' = PStr k /\ In k (dict_keys (configs m'))) /\
     (dict_keys (configs m') = [] -> current_city m' = PNone)).
Proof.
  intros Hw Hv. simpl.
  destruct (dict_mem cid (configs m)) eqn:Hk.
  2:{ rewrite (remove_city_absent m f cid Hk). simpl. split; [reflexivity | discriminate]. }
  rewrite (remove_city_present m f cid Hk), Hw; simpl.
  split; [reflexivity|]. intros _.
  rewrite dict_keys_del.
  split; [reflexivity|]. split.
  { intros Hin. apply filter_In in Hin as [_ Hin].
    rewrite String.eqb_refl in Hin. discriminate. }
  split.
  - intros Hc Hne. rewrite Hc; simpl. rewrite String.eqb_refl.
    destruct (filter _ (dict_keys (configs m))) as [|k ks] eqn:Hf; [congruence|].
    exists k. split; [reflexivity | left; reflexivity].
  - intros Hnil. rewrite Hnil.
    destruct (py_eq_str (current_city m) cid) eqn:Hc; [reflexivity|].
    destruct Hv as [Hn | [k [Hk' Hin]]]; [exact Hn|].
    exfalso. rewrite Hk' in Hc; simpl in Hc.
    assert (Hne : k <> cid) by (intros ->; rewrite String.eqb_refl in Hc; discriminate).
    pose proof (In_filter_neq cid k _ Hin Hne) as H. rewrite Hnil in H. exact H.
Qed.

Lemma remove_city_reassigns_witness :
  let m := {| configs := [("fargo_nd", fargo)]; current_city := PStr "fargo_nd" |} in
  let f := {| file := None; writable := true |} in
  writable f = true /\ valid_pointer m /\
  current_city (mgr (snd (remove_city "fargo_nd" {| mgr := m; fs := f |}))) = PNone.
Proof.
  intros m f.
  assert (Hv : valid_pointer m) by (right; exists "fargo_nd"; split; [reflexivity | left; reflexivity]).
  split; [reflexivity|]. split; [exact Hv|].
  destruct (remove_city_reassigns m f "fargo_nd" eq_refl Hv) as [_ H].
  destruct (H eq_refl) as [_ [_ [_ H4]]]. apply H4. reflexivity.
Defined.

Lemma dict_get_set_same {A} (k : string) (v : A) (d : dict A) :
  dict_get k (dict_set k v d) = Some v.
Proof.
  induction d as [|[k' v'] t IH]; simpl.
  - rewrite String.eqb_refl. reflexivity.
  - destruct (String.eqb_spec k k') as [->|Hne]; simpl.
    + rewrite String.eqb_refl. reflexivity.
    + destruct (String.eqb_spec k k'); [congruence | exact IH].
Qed.

Lemma dict_keys_set {A} (k : string) (v : A) (d : dict A) :
  dict_keys (dict_set k v d) =
  if dict_mem k d then dict_keys d else dict_keys d ++ [k].
Proof.
  unfold dict_mem, dict_keys; induction d as [|[k' v'] t IH]; simpl; [reflexivity|].
  destruct (String.eqb k k'); simpl; [reflexivity|].
  rewrite IH. destruct (dict_get k t); reflexivity.
Qed.

(** How many entries of [d] sit under key [k]. *)
Definition key_count {A} (k : string) (d : dict A) : nat :=
  count_occ string_dec (dict_keys d) k.

Lemma key_count_set {A} (k : string) (v : A) (d : dict A) :
  NoDup (dict_keys d) -> key_count k (dict_set k v d) = 1.
Proof.
  intros Hnd. unfold key_count. rewrite dict_keys_set.
  destruct (dict_mem k d) eqn:Hm.
  - apply dict_get_in in Hm.
    pose proof (proj1 (NoDup_count_occ string_dec _) Hnd k) as Hle.
    pose proof (proj1 (count_occ_In string_dec _ k) Hm) as Hgt. lia.
  - assert (Hn : ~ In k (dict_keys d)) by (rewrite <- dict_get_in; congruence).
    rewrite count_occ_app. simpl. destruct (string_dec k k) as [_|]; [|congruence].
    rewrite (count_occ_not_In string_dec _ k) in Hn. lia.
Qed.

Lemma add_city_writes (m : Manager) (f : FS) (c : CityConfiguration) (k : string) :
  city_id c = PStr k -> writable f = true ->
  let m' := {| configs := dict_set k c (configs m); current_city := current_city m |} in
  add_city c {| mgr := m; fs := f |} = (Ok tt, {| mgr := m'; fs := saved m' |}).
Proof.
  intros Hc Hw. unfold add_city. rewrite Hc.
  unfold set_configs, save_configs, saved, bind, get_mgr, get_fs, put_mgr, put_fs; simpl.
  rewrite Hw. reflexivity.
Qed.

(** C8: two add_city calls with the same city_id leave one entry under that
    id, holding the second configuration; each call writes the store. *)
Theorem add_city_twice_last_wins (m : Manager) (f : FS) (c1 c2 : CityConfiguration) (k : string) :
  NoDup (dict_keys (configs m)) -> writable f = true ->
  city_id c1 = PStr k -> city_id c2 = PStr k ->
  let r1 := add_city c1 {| mgr := m; fs := f |} in
  let r2 := add_city c2 (snd r1) in
  fst r1 = Ok tt /\ fs (snd r1) = saved (mgr (snd r1)) /\
  fst r2 = Ok tt /\ fs (snd r2) = saved (mgr (snd r2)) /\
  key_count k (configs (mgr (snd r2))) = 1 /\
  dict_get k (configs (mgr (snd r2))) = Some c2 /\
  current_city (mgr (snd r2)) = current_city m.
Proof.
  intros Hnd Hw H1 H2. simpl.
  rewrite (add_city_writes m f c1 k H1 Hw); simpl.
  rewrite (add_city_writes _ (saved _) c2 k H2 eq_refl); simpl.
  repeat split; try reflexivity.
  - unfold key_count. rewrite dict_keys_set.
    assert (Hm : dict_mem k (dict_set k c1 (configs m)) = true)
      by (unfold dict_mem; rewrite dict_get_set_same; reflexivity).
    rewrite Hm. apply key_count_set. exact Hnd.
  - apply dict_get_set_same.
Qed.

Lemma add_city_twice_last_wins_witness :
  let m := {| configs := default_configs; current_city := PStr "grand_forks_nd" |} in
  let f := {| file := None; writable := true |} in
  let fargo2 := {| city_id := PStr "fargo_nd"; display_name := PStr "Fargo";
                   bounds := bounds fargo; demographics := demographics fargo;
                   market_data := market_data fargo;
                   competitor_data := competitor_data fargo |} in
  NoDup (dict_keys (configs m)) /\
  dict_get "fargo_nd" (configs (mgr (snd (add_city fargo2 (snd (add_city fargo {| mgr := m; fs := f |}))))))
    = Some fargo2.
Proof.
  intros m f fargo2.
  assert (Hnd : NoDup (dict_keys (configs m))) by (vm_compute; repeat constructor; simpl; intuition discriminate).
  split; [exact Hnd|].
  destruct (add_city_twice_last_wins m f fargo fargo2 "fargo_nd" Hnd eq_refl eq_refl eq_refl)
    as [_ [_ [_ [_ [_ [H _]]]]]].
  exact H.
Defined.

(** ** Loading *)

(** The store _create_default_configs builds. *)
Definition default_mgr : Manager :=
  {| configs := default_configs; current_city := PStr "grand_forks_nd" |}.

Definition fresh (f : FS) : World := {| mgr := empty_manager; fs := f |}.

Lemma create_default_configs_run (w : World) :
  _create_default_configs w =
    if writable (fs w) then (Ok tt, {| mgr := default_mgr; fs := saved default_mgr |})
    else (Err IOError, {| mgr := default_mgr; fs := fs w |}).
Proof.
  destruct w as [m f].
  unfold _create_default_configs, set_configs, set_current, save_configs, saved,
    bind, get_mgr, get_fs, put_mgr, put_fs, raise; simpl.
  destruct (writable f); reflexivity.
Qed.

(** Actions that leave the file alone. *)
Definition keeps_fs {A} (a : M A) : Prop := forall w, fs (snd (a w)) = fs w.

Lemma keeps_fs_bind {A B} (a : M A) (k : A -> M B) :
  keeps_fs a -> (forall x, keeps_fs (k x)) -> keeps_fs (bind a k).
Proof.
  intros Ha Hk w. unfold bind. specialize (Ha w).
  destruct (a w) as [[x|e] w']; simpl in *; [rewrite Hk|]; exact Ha.
Qed.

Lemma keeps_fs_lift {A} (r : res A) : keeps_fs (lift r).
Proof. intros w; reflexivity. Qed.

Lemma keeps_fs_get_mgr : keeps_fs get_mgr.
Proof. intros w; reflexivity. Qed.

Lemma keeps_fs_put_mgr (m : Manager) : keeps_fs (put_mgr m).
Proof. intros w; reflexivity. Qed.

Lemma keeps_fs_ret {A} (a : A) : keeps_fs (ret a).
Proof. intros w; reflexivity. Qed.

Lemma keeps_fs_for_each {A} (l : list A) (body : A -> M unit) :
  (forall x, keeps_fs (body x)) -> keeps_fs (for_each l body).
Proof.
  intros Hb. induction l as [|x t IH]; simpl.
  - apply keeps_fs_ret.
  - apply keeps_fs_bind; [apply Hb | intros _; exact IH].
Qed.

Create HintDb keepsfs.
#[local] Hint Resolve keeps_fs_bind keeps_fs_lift keeps_fs_get_mgr keeps_fs_put_mgr
  keeps_fs_ret keeps_fs_for_each : keepsfs.

Lemma keeps_fs_load_from (c : fcontent) : keeps_fs (load_from c).
Proof.
  unfold load_from, load_city, set_configs, set_current.
  repeat (apply keeps_fs_bind || apply keeps_fs_for_each || intros);
    auto with keepsfs.
Qed.

(** load_configs when the file is missing or the [try] body raises: the
    defaults, persisted, or the IOError of that save. *)
Lemma new_manager_fallback (f : FS) :
  (file f = None \/
   exists c e, file f = Some c /\ fst (load_from c (fresh f)) = Err e) ->
  new_manager f =
    if writable f then (Ok tt, {| mgr := default_mgr; fs := saved default_mgr |})
    else (Err IOError, {| mgr := default_mgr; fs := f |}).
Proof.
  intros [Hn | [c [e [Hc He]]]].
  - unfold new_manager, load_configs, bind, get_fs; cbn [fs file]. rewrite Hn.
    apply create_default_configs_run.
  - unfold new_manager, load_configs, bind, get_fs; cbn [fs file]. rewrite Hc.
    unfold try_except. change {| mgr := empty_manager; fs := f |} with (fresh f).
    pose proof (keeps_fs_load_from c (fresh f)) as Hk.
    destruct (load_from c (fresh f)) as [r w'] eqn:Hl. simpl in He, Hk. subst r.
    rewrite create_default_configs_run, Hk. reflexivity.
Qed.

(** ** Reading back what save_configs wrote *)

Lemma In_insert_key {A} (p q : string * A) (l : list (string * A)) :
  In p (insert_key q l) <-> q = p \/ In p l.
Proof.
  induction l as [|r t IH]; simpl.
  - tauto.
  - destruct (String.leb (fst q) (fst r)); simpl; [tauto|].
    rewrite IH. tauto.
Qed.

Lemma In_sort_keys {A} (p : string * A) (l : list (string * A)) :
  In p (sort_keys l) <-> In p l.
Proof.
  induction l as [|q t IH]; simpl; [tauto|].
  rewrite In_insert_key, IH. intuition.
Qed.

Lemma build_map_err {A} (f : A -> res pyval) (m : list (string * A)) (kx : string * A) (e : exn) :
  In kx m -> f (snd kx) = Err e ->
  forall acc, exists e', build_map f m acc = Err e'.
Proof.
  intros Hin Hf. induction m as [|ky t IH]; simpl in *; [contradiction|].
  intros acc. destruct Hin as [<-|Hin].
  - rewrite Hf. simpl. eauto.
  - destruct (f (snd ky)); simpl; [apply IH; exact Hin | eauto].
Qed.

(** A dict dumps to a node safe_load rejects as soon as one value does. *)
Lemma safe_load_dump_dict_err (d : list (string * pyval)) (k : string) (v : pyval) :
  In (k, v) d -> (exists e, safe_load (yaml_dump v) = Err e) ->
  exists e, safe_load (yaml_dump (PDict d)) = Err e.
Proof.
  intros Hin [e He]. simpl.
  assert (Hin' : In (k, yaml_dump v) (sort_keys (map (fun kv => (fst kv, yaml_dump (snd kv))) d))).
  { apply In_sort_keys. apply in_map_iff. exists (k, v). split; [reflexivity | exact Hin]. }
  destruct (build_map_err safe_load _ _ e Hin' He []) as [e' He'].
  rewrite He'. simpl. eauto.
Qed.

(** The dump of a store holding a configuration whose population range is
    a tuple (the dataclass's Tuple[int, int]) is rejected by safe_load. *)
Lemma safe_load_rejects_saved_tuple (m : Manager) (k : string) (c : CityConfiguration) (l : list pyval) :
  In (k, c) (configs m) -> typical_population_range (demographics c) = PTuple l ->
  exists e, safe_load (yaml_dump (store_data m)) = Err e.
Proof.
  intros Hin Ht. unfold store_data.
  apply (safe_load_dump_dict_err _ "cities" (PDict (map (fun kc => (fst kc, to_dict (snd kc))) (configs m))));
    [right; left; reflexivity|].
  apply (safe_load_dump_dict_err _ k (to_dict c)).
  { apply in_map_iff. exists (k, c). split; [reflexivity | exact Hin]. }
  unfold to_dict.
  apply (safe_load_dump_dict_err _ "demographics" (demographics_asdict (demographics c)));
    [simpl; tauto|].
  unfold demographics_asdict.
  apply (safe_load_dump_dict_err _ "typical_population_range" (PTuple l));
    [rewrite <- Ht; simpl; tauto|].
  simpl. eauto.
Qed.

(** C1 (as the code does it): saving a store that holds any configuration
    with its tuple-valued population range and loading it in a fresh
    manager does not give the store back: safe_load refuses the
    !!python/tuple tag that yaml.dump wrote, and load_configs falls back to
    the three defaults with current_city = "grand_forks_nd". *)
Theorem saved_store_reloads_as_defaults (m : Manager) (f : FS) (k : string)
  (c : CityConfiguration) (l : list pyval) :
  writable f = true -> In (k, c) (configs m) ->
  typical_population_range (demographics c) = PTuple l ->
  new_manager (fs (snd (save_configs {| mgr := m; fs := f |}))) =
    (Ok tt, {| mgr := default_mgr; fs := saved default_mgr |}).
Proof.
  intros Hw Hin Ht.
  rewrite (proj1 (save_configs_writes_or_raises m f) Hw), <- yaml_dump_store_data.
  cbn [fs snd].
  rewrite new_manager_fallback by
    (right; destruct (safe_load_rejects_saved_tuple m k c l Hin Ht) as [e He];
     exists (Doc (yaml_dump (store_data m))), e; split; [reflexivity|];
     unfold load_from, bind, lift; cbn [read_yaml fresh]; rewrite He; reflexivity).
  reflexivity.
Qed.

Lemma saved_store_reloads_as_defaults_witness :
  let m := {| configs := [("fargo_nd", fargo)]; current_city := PStr "fargo_nd" |} in
  writable {| file := None; writable := true |} = true /\
  In ("fargo_nd", fargo) (configs m) /\
  typical_population_range (demographics fargo) = PTuple [PInt 5000; PInt 18000] /\
  mgr (snd (new_manager (fs (snd (save_configs {| mgr := m; fs := {| file := None; writable := true |} |})))))
    = default_mgr.
Proof.
  intros m. split; [reflexivity|]. split; [left; reflexivity|]. split; [reflexivity|].
  rewrite (saved_store_reloads_as_defaults m {| file := None; writable := true |}
             "fargo_nd" fargo [PInt 5000; PInt 18000] eq_refl (or_introl eq_refl) eq_refl).
  reflexivity.
Defined.

(** C6 (as the code does it): from no file, the defaults appear and
    set_current_city("fargo_nd") succeeds and is written, but a fresh
    manager on that file reports current_city "grand_forks_nd": the written
    file cannot be read back (see [saved_store_reloads_as_defaults]). *)
Theorem end_to_end_selection_not_restored :
  let w1 := snd (new_manager {| file := None; writable := true |}) in
  let r2 := set_current_city "fargo_nd" w1 in
  fst (new_manager {| file := None; writable := true |}) = Ok tt /\
  dict_keys (configs (mgr w1)) = ["grand_forks_nd"; "fargo_nd"; "bismarck_nd"] /\
  fst r2 = Ok true /\
  current_city (mgr (snd r2)) = PStr "fargo_nd" /\
  fs (snd r2) = saved (mgr (snd r2)) /\
  current_city (mgr (snd (new_manager (fs (snd r2))))) = PStr "grand_forks_nd".
Proof. vm_compute. repeat split. Qed.

(** The [try] body of load_configs raises on unparseable text. *)
Lemma load_from_unparseable (w : World) :
  fst (load_from Unparseable w) = Err YAMLError.
Proof. reflexivity. Qed.

(** A document from which the body of load_configs' try cannot build the
    store: yaml.safe_load rejects it (a tag the safe loader does not
    construct), or it decodes to something that is not a mapping (None for
    an empty file, a list, a scalar), or its "cities" entry is absent or
    not a mapping (null, a list, a scalar), or a city record from which
    from_dict cannot build a CityConfiguration (a key it reads, or an
    argument without default, is absent). *)
Definition unusable_document (d : ynode) : Prop :=
  (exists e, safe_load d = Err e) \/
  exists data, safe_load d = Ok data /\
  ((forall dd, data <> PDict dd) \/
   (exists dd, data = PDict dd /\
      (dict_get "cities" dd = None \/
       exists v, dict_get "cities" dd = Some v /\ forall items, v <> PDict items)) \/
   (exists items k r e, py_getitem data "cities" = Ok (PDict items) /\
      In (k, r) items /\ from_dict r = Err e)).

Lemma for_each_err {A} (l : list A) (body : A -> M unit) (x : A) :
  In x l -> (forall w, exists e, fst (body x w) = Err e) ->
  forall w, exists e, fst (for_each l body w) = Err e.
Proof.
  intros Hin Hb. induction l as [|y t IH]; simpl in *; [contradiction|].
  intros w. unfold bind. destruct Hin as [->|Hin].
  - destruct (Hb w) as [e He]. destruct (body x w) as [[u|e'] w']; simpl in *; [discriminate|eauto].
  - destruct (body y w) as [[u|e'] w']; [apply IH; exact Hin | simpl; eauto].
Qed.

Lemma load_from_unusable (d : ynode) (w : World) :
  unusable_document d -> exists e, fst (load_from (Doc d) w) = Err e.
Proof.
  intros [[e He] | [data [Hd Hu]]];
    unfold load_from, bind, lift; cbn [read_yaml].
  { rewrite He. simpl. eauto. }
  rewrite Hd.
  destruct Hu as [Hnd | [[dd [-> [Hc | [v [Hc Hv]]]]] | [items [k [r [e [Hc [Hin He]]]]]]]].
  - destruct data as [| | | | | |dd]; try (simpl; eauto; fail).
    exfalso. exact (Hnd dd eq_refl).
  - unfold py_getitem; rewrite Hc. simpl. eauto.
  - unfold py_getitem; rewrite Hc. cbn [fst].
    destruct v as [| | | | | |items]; try (simpl; eauto; fail).
    exfalso. exact (Hv items eq_refl).
  - rewrite Hc. cbn [py_items fst].
    destruct (for_each_err items load_city (k, r) Hin) with (w := w) as [e' He'].
    { intros w0. unfold load_city, bind, lift. simpl. rewrite He. simpl. eauto. }
    destruct (for_each items load_city w) as [[u|e''] w']; simpl in *; [discriminate | eauto].
Qed.

(** C2 (amended): when the file is missing, unparseable or corrupt (an
    empty file, a document safe_load rejects, a document that is not a
    mapping, a "cities" entry that is absent or not a mapping) or lacks a
    required field of a city record, load_configs returns normally with the
    three seeded configurations and current_city = "grand_forks_nd",
    written to the file, provided the file can be written; when it cannot,
    the IOError of that save propagates out of load_configs. *)
Theorem load_configs_seeds_defaults (f : FS) :
  (file f = None \/ file f = Some Unparseable \/
   exists d, file f = Some (Doc d) /\ unusable_document d) ->
  dict_keys (configs default_mgr) = ["grand_forks_nd"; "fargo_nd"; "bismarck_nd"] /\
  current_city default_mgr = PStr "grand_forks_nd" /\
  (writable f = true -> new_manager f = (Ok tt, {| mgr := default_mgr; fs := saved default_mgr |})) /\
  (writable f = false -> new_manager f = (Err IOError, {| mgr := default_mgr; fs := f |})).
Proof.
  intros Hf.
  assert (Hfb : file f = None \/
                exists c e, file f = Some c /\ fst (load_from c (fresh f)) = Err e).
  { destruct Hf as [Hn | [Hu | [d [Hd Hl]]]]; [left; exact Hn| |].
    - right. exists Unparseable, YAMLError. split; [exact Hu | apply load_from_unparseable].
    - right. destruct (load_from_unusable d (fresh f) Hl) as [e He].
      exists (Doc d), e. split; [exact Hd | exact He]. }
  split; [reflexivity|]. split; [reflexivity|].
  rewrite (new_manager_fallback f Hfb).
  split; intros Hw; rewrite Hw; reflexivity.
Qed.

Lemma load_configs_seeds_defaults_witness :
  let f1 := {| file := Some (Doc YNull); writable := true |} in
  let d2 := YMap [("cities", YNull); ("current_city", YStr "fargo_nd")] in
  let f2 := {| file := Some (Doc d2); writable := false |} in
  unusable_document YNull /\ mgr (snd (new_manager f1)) = default_mgr /\
  unusable_document d2 /\ fst (new_manager f2) = Err IOError.
Proof.
  intros f1 d2 f2.
  assert (H1 : unusable_document YNull).
  { right. exists PNone. split; [reflexivity|]. left. intros dd; discriminate. }
  assert (H2 : unusable_document d2).
  { right. eexists. split; [reflexivity|]. right. left. eexists. split; [reflexivity|].
    right. exists PNone. split; [reflexivity|]. intros items; discriminate. }
  split; [exact H1|].
  split.
  { destruct (load_configs_seeds_defaults f1 (or_intror (or_intror (ex_intro _ _ (conj eq_refl H1)))))
      as [_ [_ [H _]]].
    rewrite (H eq_refl). reflexivity. }
  split; [exact H2|].
  destruct (load_configs_seeds_defaults f2 (or_intror (or_intror (ex_intro _ _ (conj eq_refl H2)))))
    as [_ [_ [_ H]]].
  rewrite (H eq_refl). reflexivity.
Defined.

(** C2 as stated fails: with no file and a destination that cannot be
    written, load_configs raises the IOError of the seeding save. *)
Lemma load_missing_file_unwritable_raises :
  fst (new_manager {| file := None; writable := false |}) = Err IOError.
Proof. reflexivity. Qed.

(** ** What load_configs leaves behind *)

Lemma In_keys_set {A} (k k0 : string) (v : A) (d : dict A) :
  In k (dict_keys (dict_set k0 v d)) <-> In k (dict_keys d) \/ k0 = k.
Proof.
  rewrite dict_keys_set. destruct (dict_mem k0 d) eqn:Hm.
  - apply dict_get_in in Hm. split; [tauto|].
    intros [H | <-]; assumption.
  - rewrite in_app_iff. simpl. tauto.
Qed.

Lemma for_each_load_city_ok (items : list (string * pyval)) (w w' : World) :
  for_each items load_city w = (Ok tt, w') ->
  (forall k, In k (dict_keys (configs (mgr w'))) <->
             In k (dict_keys (configs (mgr w))) \/ In k (map fst items)) /\
  current_city (mgr w') = current_city (mgr w).
Proof.
  revert w. induction items as [|[k0 r] t IH]; intros w H; simpl in H.
  - unfold ret in H. injection H as <-. simpl. split; [tauto | reflexivity].
  - unfold bind at 1, load_city, bind, lift, get_mgr, set_configs, put_mgr in H.
    simpl in H. destruct (from_dict r) as [cfg|e]; [|discriminate].
    apply IH in H as [Hk Hc]. simpl in Hk, Hc. split; [|exact Hc].
    intros k. rewrite Hk, In_keys_set. simpl. tauto.
Qed.

(** C3 (amended): after load_configs returns normally, either the store is
    the three seeded defaults (non-empty, current_city one of the keys), or
    the file decoded and the store holds exactly the file's city keys, which
    may be none, with current_city the file's current_city value (None when
    absent), which need not be one of those keys. *)
Theorem load_configs_outcome (f : FS) (w : World) :
  new_manager f = (Ok tt, w) ->
  (mgr w = default_mgr /\ dict_keys (configs (mgr w)) <> [] /\ valid_pointer (mgr w)) \/
  (exists c data items, file f = Some c /\ read_yaml c = Ok data /\
     py_getitem data "cities" = Ok (PDict items) /\
     (forall k, In k (dict_keys (configs (mgr w))) <-> In k (map fst items)) /\
     py_get data "current_city" = Ok (current_city (mgr w))).
Proof.
  assert (Hdef : forall w', (Ok tt, w') = (if writable f
                    then (Ok tt, {| mgr := default_mgr; fs := saved default_mgr |})
                    else (Err IOError, {| mgr := default_mgr; fs := f |})) ->
                  mgr w' = default_mgr /\ dict_keys (configs (mgr w')) <> [] /\
                  valid_pointer (mgr w')).
  { intros w' H. destruct (writable f); [|discriminate].
    injection H as ->. simpl. split; [reflexivity|]. split; [discriminate|].
    right. exists "grand_forks_nd". split; [reflexivity | left; reflexivity]. }
  intros H. destruct (file f) as [c|] eqn:Hf.
  2:{ left. apply Hdef. rewrite <- H. apply new_manager_fallback. left; exact Hf. }
  destruct (load_from c (fresh f)) as [[u|e] w1] eqn:Hl.
  2:{ left. apply Hdef. rewrite <- H. apply new_manager_fallback.
      right. exists c, e. rewrite Hl. split; [exact Hf | reflexivity]. }
  assert (Hw : w = w1).
  { unfold new_manager, load_configs, bind, get_fs in H. cbn [fs file] in H.
    rewrite Hf in H. unfold try_except in H.
    change {| mgr := empty_manager; fs := f |} with (fresh f) in H.
    rewrite Hl in H. destruct u. injection H as ->. reflexivity. }
  subst w1. right. exists c.
  unfold load_from, bind, lift in Hl.
  destruct (read_yaml c) as [data|e] eqn:Hr; [|discriminate].
  destruct (py_getitem data "cities") as [cities|e] eqn:Hc; [|discriminate].
  destruct (py_items cities) as [items|e] eqn:Hi; [|discriminate].
  assert (Hcities : cities = PDict items) by (destruct cities; try discriminate; now injection Hi as ->).
  subst cities.
  destruct (for_each items load_city (fresh f)) as [[[]|e] w2] eqn:Hfe; [|discriminate].
  destruct (py_get data "current_city") as [cur|e] eqn:Hg; [|discriminate].
  unfold set_current, bind, get_mgr, put_mgr in Hl. injection Hl as Hw. subst w.
  apply for_each_load_city_ok in Hfe as [Hk _]. simpl in Hk |- *.
  exists data, items. repeat split; try assumption.
  - intros Hin. apply Hk in Hin. tauto.
  - intros Hin. apply Hk. tauto.
Qed.

Lemma load_configs_outcome_witness :
  new_manager {| file := None; writable := true |} =
    (Ok tt, {| mgr := default_mgr; fs := saved default_mgr |}) /\
  dict_keys (configs default_mgr) <> [].
Proof.
  assert (H : new_manager {| file := None; writable := true |} =
                (Ok tt, {| mgr := default_mgr; fs := saved default_mgr |})) by reflexivity.
  split; [exact H|].
  destruct (load_configs_outcome _ _ H) as [[_ [Hn _]] | [c [_ [_ [Hf _]]]]];
    [exact Hn | discriminate].
Defined.

(** C3 as stated fails: a file that decodes to no cities and a
    current_city that is not a key (as a store emptied by remove_city and
    then edited would be) loads as it is. *)
Lemma load_empty_cities_file :
  let f := {| file := Some (Doc (YMap [("cities", YMap []); ("current_city", YStr "fargo_nd")]));
              writable := true |} in
  fst (new_manager f) = Ok tt /\
  dict_keys (configs (mgr (snd (new_manager f)))) = [] /\
  current_city (mgr (snd (new_manager f))) = PStr "fargo_nd".
Proof. vm_compute. repeat split. Qed.

(** ** Grid points *)













(** * Properties of the other methods, the module functions and the dashboard *)

(** ** Dict lemmas *)

Lemma dict_get_set_other {A} (k k' : string) (v : A) (d : dict A) :
  k' <> k -> dict_get k' (dict_set k v d) = dict_get k' d.
Proof.
  intros Hne. induction d as [|[k0 v0] t IH]; simpl.
  - destruct (String.eqb_spec k' k); [congruence | reflexivity].
  - destruct (String.eqb_spec k k0) as [->|Hk]; simpl.
    + destruct (String.eqb_spec k' k0); [congruence | reflexivity].
    + destruct (String.eqb k' k0); [reflexivity | exact IH].
Qed.

Lemma dict_get_del_same {A} (k : string) (d : dict A) : dict_get k (dict_del k d) = None.
Proof.
  induction d as [|[k0 v0] t IH]; simpl; [reflexivity|].
  destruct (String.eqb_spec k k0) as [->|Hk]; [exact IH|]. simpl.
  destruct (String.eqb_spec k k0); [congruence | exact IH].
Qed.

Lemma dict_get_del_other {A} (k k' : string) (d : dict A) :
  k' <> k -> dict_get k' (dict_del k d) = dict_get k' d.
Proof.
  intros Hne. induction d as [|[k0 v0] t IH]; simpl; [reflexivity|].
  destruct (String.eqb_spec k k0) as [->|Hk]; simpl.
  - destruct (String.eqb_spec k' k0); [congruence | exact IH].
  - destruct (String.eqb k' k0); [reflexivity | exact IH].
Qed.

Lemma dict_get_nodup {A} (k : string) (v : A) (d : dict A) :
  NoDup (dict_keys d) -> In (k, v) d -> dict_get k d = Some v.
Proof.
  unfold dict_keys. induction d as [|[k0 v0] t IH]; simpl; [tauto|].
  intros Hnd Hin. inversion Hnd as [|? ? Hnot Hnd']; subst.
  destruct Hin as [Heq | Hin].
  - injection Heq as -> ->. rewrite String.eqb_refl. reflexivity.
  - destruct (String.eqb_spec k k0) as [->|Hk].
    + exfalso. apply Hnot. apply in_map_iff. exists (k0, v). split; [reflexivity | exact Hin].
    + apply IH; assumption.
Qed.

(** ** The queries only read *)

Lemma get_config_run (k : string) (w : World) :
  get_config k w = (Ok (dict_get k (configs (mgr w))), w).
Proof. reflexivity. Qed.

Lemma list_cities_run (w : World) :
  list_cities w = (Ok (dict_keys (configs (mgr w))), w).
Proof. reflexivity. Qed.

Lemma get_current_config_run (w : World) :
  exists r, get_current_config w = (r, w).
Proof.
  destruct w as [m f]. unfold get_current_config, bind, get_mgr, ret; simpl.
  destruct (py_truthy (current_city m));
    [destruct (py_hashable (current_city m)); [destruct (current_city m)|]|];
    eexists; reflexivity.
Qed.

(** ** Mutators, whatever the save does *)

Lemma add_city_run (m : Manager) (f : FS) (c : CityConfiguration) (k : string) :
  city_id c = PStr k ->
  let m' := {| configs := dict_set k c (configs m); current_city := current_city m |} in
  add_city c {| mgr := m; fs := f |} =
    if writable f then (Ok tt, {| mgr := m'; fs := saved m' |})
    else (Err IOError, {| mgr := m'; fs := f |}).
Proof.
  intros Hc. unfold add_city. rewrite Hc.
  unfold set_configs, save_configs, saved, bind, get_mgr, get_fs, put_mgr, put_fs, raise; simpl.
  destruct (writable f); reflexivity.
Qed.

Lemma set_current_city_run (m : Manager) (f : FS) (cid : string) :
  dict_mem cid (configs m) = true ->
  let m' := {| configs := configs m; current_city := PStr cid |} in
  set_current_city cid {| mgr := m; fs := f |} =
    if writable f then (Ok true, {| mgr := m'; fs := saved m' |})
    else (Err IOError, {| mgr := m'; fs := f |}).
Proof.
  intros Hk. unfold set_current_city, bind, get_mgr; simpl. rewrite Hk.
  unfold set_current, save_configs, saved, bind, get_mgr, get_fs, put_mgr, put_fs, ret, raise; simpl.
  destruct (writable f); reflexivity.
Qed.

(** ** Constructing a manager *)

Lemma new_manager_shape (f : FS) :
  (exists w, new_manager f = (Ok tt, w) /\ fs w = f) \/
  new_manager f = (if writable f then (Ok tt, {| mgr := default_mgr; fs := saved default_mgr |})
                   else (Err IOError, {| mgr := default_mgr; fs := f |})).
Proof.
  unfold new_manager, load_configs, bind, get_fs; cbn [fs file].
  destruct (file f) as [c|] eqn:Hf.
  - unfold try_except. change {| mgr := empty_manager; fs := f |} with (fresh f).
    pose proof (keeps_fs_load_from c (fresh f)) as Hk.
    destruct (load_from c (fresh f)) as [[[]|e] w'] eqn:Hl; simpl in Hk.
    + left. exists w'. split; [reflexivity | exact Hk].
    + right. rewrite create_default_configs_run, Hk. reflexivity.
  - right. apply create_default_configs_run.
Qed.

(** The file of the seeded defaults does not load either (its population
    ranges are tuples): a manager on it seeds and writes them again. *)
Lemma new_manager_saved_defaults :
  new_manager (saved default_mgr) = (Ok tt, {| mgr := default_mgr; fs := saved default_mgr |}).
Proof. vm_compute. reflexivity. Qed.

(** A manager on a file that save_configs wrote from a store holding a
    configuration with a tuple-valued population range. *)
Lemma new_manager_saved_tuple (m : Manager) (k : string) (c : CityConfiguration) (l : list pyval) :
  In (k, c) (configs m) -> typical_population_range (demographics c) = PTuple l ->
  new_manager (saved m) = (Ok tt, {| mgr := default_mgr; fs := saved default_mgr |}).
Proof.
  intros Hin Ht.
  rewrite new_manager_fallback by
    (right; destruct (safe_load_rejects_saved_tuple m k c l Hin Ht) as [e He];
     exists (Doc (yaml_dump (store_data m))), e; split; [reflexivity|];
     unfold load_from, bind, lift; cbn [read_yaml fresh]; rewrite He; reflexivity).
  reflexivity.
Qed.

(** ** The data loader *)

Lemma py_getitem_truthy (v : pyval) (k : string) (x : pyval) :
  py_getitem v k = Ok x -> py_truthy v = true.
Proof.
  destruct v as [| | | | | |d]; simpl; try discriminate.
  destruct d; [discriminate | reflexivity].
Qed.

Lemma py_eq_str_refl (s : string) : py_eq_str (PStr s) s = true.
Proof. simpl. apply String.eqb_refl. Qed.

(** A call that returned data leaves the cache on that city, holding it. *)
Lemma load_city_data_returned (pkl : PklFS) (cid : string) (self self' : EnhancedDataLoader) (d : pyval) :
  load_city_data pkl cid self = (d, self') -> d <> PNone ->
  current_data self' = d /\ py_eq_str (current_city_id self') cid = true /\ py_truthy d = true.
Proof.
  unfold load_city_data. intros H Hd.
  destruct (py_eq_str (current_city_id self) cid && py_truthy (current_data self)) eqn:Hc.
  - injection H as <- <-. apply andb_prop in Hc as [H1 H2]. auto.
  - destruct (pkl (processed_data_file cid)) as [[data|e]|]; [|injection H as <-; congruence
      | injection H as <-; congruence].
    destruct (py_getitem data "df_filtered") as [df|e] eqn:Hg; simpl in H.
    + destruct (py_len df); injection H as <- <-; [|congruence].
      simpl. split; [reflexivity|]. split; [apply String.eqb_refl|].
      exact (py_getitem_truthy _ _ _ Hg).
    + injection H as <-; congruence.
Qed.

(** get_available_cities over a part of the store, keys unique. *)
Lemma collect_available_nodup (pkl : PklFS) (w : World) (l : dict CityConfiguration) :
  NoDup (dict_keys (configs (mgr w))) -> (forall kc, In kc l -> In kc (configs (mgr w))) ->
  collect_available pkl (dict_keys l) w =
    (Ok (map (fun kc => available_entry (fst kc) (snd kc))
             (filter (fun kc => path_exists pkl (processed_data_file (fst kc))) l)), w).
Proof.
  intros Hnd. induction l as [|[k v] t IH]; intros Hsub; [reflexivity|].
  assert (Hget : dict_get k (configs (mgr w)) = Some v)
    by (apply dict_get_nodup; [exact Hnd | apply Hsub; left; reflexivity]).
  assert (IH' := IH (fun kc H => Hsub kc (or_intror H))).
  unfold dict_keys in IH' |- *. cbn [map fst collect_available filter snd].
  destruct (path_exists pkl (processed_data_file k)).
  - unfold bind at 1 2. rewrite get_config_run, Hget. cbn [ret].
    unfold bind. rewrite IH'. reflexivity.
  - unfold bind at 1. cbn [ret]. unfold bind. rewrite IH'. reflexivity.
Qed.

Lemma flat_map_select {A B} (p : A -> bool) (g : A -> B) (l : list A) :
  flat_map (fun x => if p x then [g x] else []) l = map g (filter p l).
Proof.
  induction l as [|x t IH]; simpl; [reflexivity|]. rewrite IH. destruct (p x); reflexivity.
Qed.

(** ** The slider settings *)

Lemma series_max_all_nan (xs : list float) :
  forallb PrimFloat.is_nan xs = true -> series_max xs = nan.
Proof.
  intros H. unfold series_max.
  assert (Hf : forall acc, fold_left (fun acc x =>
                     if PrimFloat.is_nan x then acc
                     else match acc with
                          | None => Some x
                          | Some a => if PrimFloat.ltb a x then Some x else Some a
                          end) xs acc = acc).
  { induction xs as [|x t IH]; intros acc; simpl in *; [reflexivity|].
    apply andb_prop in H as [Hx Ht]. rewrite Hx. apply IH, Ht. }
  rewrite Hf. reflexivity.
Qed.

(** X1: building a CityConfigManager on the file a previous one left
    behind gives the same outcome: loading is idempotent, also when the
    first one seeded and wrote the defaults. *)
Theorem new_manager_reload_same (f : FS) :
  new_manager (fs (snd (new_manager f))) = new_manager f.
Proof.
  destruct (new_manager_shape f) as [[w [Hn Hf]] | Hn]; rewrite Hn.
  - cbn [fs snd]. rewrite Hf, Hn. reflexivity.
  - destruct (writable f) eqn:Hw; cbn [fs snd].
    + apply new_manager_saved_defaults.
    + rewrite Hn. reflexivity.
Qed.

(** X2: constructing a CityConfigManager either leaves the config file as
    it was, or replaces it by the seeded defaults (and then returns
    normally with exactly those in memory). *)
Theorem new_manager_writes_only_defaults (f : FS) :
  fs (snd (new_manager f)) = f \/
  (writable f = true /\
   new_manager f = (Ok tt, {| mgr := default_mgr; fs := saved default_mgr |})).
Proof.
  destruct (new_manager_shape f) as [[w [Hn Hf]] | Hn].
  - left. rewrite Hn. exact Hf.
  - destruct (writable f) eqn:Hw.
    + right. split; [reflexivity | exact Hn].
    + left. rewrite Hn. reflexivity.
Qed.

(** X3: after add_city(config) with config.city_id = k, get_config(k)
    returns config, get_config of every other id is unchanged,
    list_cities() is unchanged if k was present and gains k at the end
    otherwise, and current_city is unchanged; this holds whether or not the
    save succeeded. *)
Theorem add_city_then_get_config (m : Manager) (f : FS) (c : CityConfiguration) (k : string) :
  city_id c = PStr k ->
  let w' := snd (add_city c {| mgr := m; fs := f |}) in
  fst (get_config k w') = Ok (Some c) /\
  (forall k', k' <> k -> fst (get_config k' w') = fst (get_config k' {| mgr := m; fs := f |})) /\
  fst (list_cities w') = Ok (if dict_mem k (configs m) then dict_keys (configs m)
                             else dict_keys (configs m) ++ [k]) /\
  current_city (mgr w') = current_city m.
Proof.
  intros Hc w'.
  assert (Hm : mgr w' = {| configs := dict_set k c (configs m); current_city := current_city m |}).
  { subst w'. rewrite (add_city_run m f c k Hc). destruct (writable f); reflexivity. }
  rewrite !get_config_run, list_cities_run, Hm. cbn [fst configs mgr current_city].
  split; [rewrite dict_get_set_same; reflexivity|].
  split.
  { intros k' Hk. rewrite !get_config_run, Hm. cbn [fst configs mgr].
    rewrite dict_get_set_other by exact Hk. reflexivity. }
  split; [rewrite dict_keys_set; reflexivity | reflexivity].
Qed.

Lemma add_city_then_get_config_witness :
  city_id fargo = PStr "fargo_nd" /\
  fst (get_config "fargo_nd"
         (snd (add_city fargo {| mgr := empty_manager; fs := {| file := None; writable := false |} |})))
    = Ok (Some fargo).
Proof.
  split; [reflexivity|].
  exact (proj1 (add_city_then_get_config empty_manager {| file := None; writable := false |}
                  fargo "fargo_nd" eq_refl)).
Defined.

(** X4: after remove_city(city_id), get_config(city_id) is None and
    get_config of every other id is unchanged, whether the id was present
    or not and whether or not the save succeeded. *)
Theorem remove_city_then_get_config (m : Manager) (f : FS) (cid : string) :
  let w' := snd (remove_city cid {| mgr := m; fs := f |}) in
  fst (get_config cid w') = Ok None /\
  (forall k', k' <> cid -> fst (get_config k' w') = fst (get_config k' {| mgr := m; fs := f |})).
Proof.
  intros w'.
  assert (Hm : configs (mgr w') = dict_del cid (configs m) \/
               (configs (mgr w') = configs m /\ dict_mem cid (configs m) = false)).
  { subst w'. destruct (dict_mem cid (configs m)) eqn:Hk.
    - left. rewrite (remove_city_present m f cid Hk). destruct (writable f); reflexivity.
    - right. rewrite (remove_city_absent m f cid Hk). split; reflexivity. }
  split.
  - rewrite get_config_run. cbn [fst]. destruct Hm as [-> | [-> Hk]].
    + rewrite dict_get_del_same. reflexivity.
    + unfold dict_mem in Hk. destruct (dict_get cid (configs m)); [discriminate | reflexivity].
  - intros k' Hne. rewrite !get_config_run. cbn [fst mgr]. destruct Hm as [-> | [-> _]].
    + rewrite dict_get_del_other by exact Hne. reflexivity.
    + reflexivity.
Qed.

(** X5: after set_current_city(city_id) for an id of the store,
    get_current_config() returns that id's configuration, except for the
    empty string id: the call succeeds but get_current_config() returns None,
    "" being falsy.  This holds whether or not the save succeeded. *)
Theorem set_current_city_then_current_config (m : Manager) (f : FS) (cid : string) :
  dict_mem cid (configs m) = true ->
  exists c, dict_get cid (configs m) = Some c /\
    fst (get_current_config (snd (set_current_city cid {| mgr := m; fs := f |}))) =
      Ok (if String.eqb cid "" then None else Some c).
Proof.
  intros Hk. pose proof Hk as Hk'. apply dict_mem_get in Hk' as [c Hc].
  exists c. split; [exact Hc|].
  rewrite (set_current_city_run m f cid Hk).
  destruct (writable f); cbn [snd];
    unfold get_current_config, bind, get_mgr, ret; cbn [mgr current_city configs py_truthy fst];
    destruct (String.eqb cid ""); simpl; [reflexivity | exact (f_equal Ok Hc)
                                         | reflexivity | exact (f_equal Ok Hc)].
Qed.

Lemma set_current_city_then_current_config_witness :
  let m := {| configs := [("", grand_forks); ("fargo_nd", fargo)]; current_city := PNone |} in
  dict_mem "" (configs m) = true /\
  fst (set_current_city "" {| mgr := m; fs := {| file := None; writable := true |} |}) = Ok true /\
  fst (get_current_config (snd (set_current_city "" {| mgr := m; fs := {| file := None; writable := true |} |})))
    = Ok None.
Proof.
  intros m. split; [reflexivity|]. split; [reflexivity|].
  destruct (set_current_city_then_current_config m {| file := None; writable := true |} "" eq_refl)
    as [c [_ Hc]].
  exact Hc.
Defined.

(** X6: when the config file cannot be written, add_city, set_current_city
    (on a known id) and remove_city (on a known id) raise IOError after
    their change to the in-memory store is made, and the file stays as it
    was. *)
Theorem mutators_change_memory_before_failed_save (m : Manager) (f : FS) :
  writable f = false ->
  (forall c k, city_id c = PStr k ->
     add_city c {| mgr := m; fs := f |} =
       (Err IOError, {| mgr := {| configs := dict_set k c (configs m);
                                  current_city := current_city m |}; fs := f |})) /\
  (forall cid, dict_mem cid (configs m) = true ->
     set_current_city cid {| mgr := m; fs := f |} =
       (Err IOError, {| mgr := {| configs := configs m; current_city := PStr cid |}; fs := f |})) /\
  (forall cid, dict_mem cid (configs m) = true ->
     fst (remove_city cid {| mgr := m; fs := f |}) = Err IOError /\
     fs (snd (remove_city cid {| mgr := m; fs := f |})) = f /\
     configs (mgr (snd (remove_city cid {| mgr := m; fs := f |}))) = dict_del cid (configs m)).
Proof.
  intros Hw. split; [|split].
  - intros c k Hc. rewrite (add_city_run m f c k Hc), Hw. reflexivity.
  - intros cid Hk. rewrite (set_current_city_run m f cid Hk), Hw. reflexivity.
  - intros cid Hk. rewrite (remove_city_present m f cid Hk), Hw. repeat split.
Qed.

Lemma mutators_change_memory_before_failed_save_witness :
  writable {| file := None; writable := false |} = false /\
  dict_mem "fargo_nd" (configs default_mgr) = true /\
  set_current_city "fargo_nd" {| mgr := default_mgr; fs := {| file := None; writable := false |} |} =
    (Err IOError, {| mgr := {| configs := default_configs; current_city := PStr "fargo_nd" |};
                     fs := {| file := None; writable := false |} |}).
Proof.
  split; [reflexivity|]. split; [reflexivity|].
  exact (proj1 (proj2 (mutators_change_memory_before_failed_save default_mgr
                         {| file := None; writable := false |} eq_refl)) "fargo_nd" eq_refl).
Defined.

(** X7: on a config file written by save_configs from a store holding a
    configuration with a tuple-valued population range, get_city_bounds()
    and get_current_city_name() report the seeded Grand Forks bounds and
    name whatever the saved current city, and each call overwrites the file
    with the seeded defaults. *)
Theorem compat_queries_reset_saved_store (m : Manager) (k : string) (c : CityConfiguration)
  (l : list pyval) :
  In (k, c) (configs m) -> typical_population_range (demographics c) = PTuple l ->
  Compat.get_city_bounds (saved m) =
    (Ok (pf 47.85, pf 47.95, pf (-97.15), pf (-97.0)), saved default_mgr) /\
  Compat.get_current_city_name (saved m) = (Ok (PStr "Grand Forks, ND"), saved default_mgr).
Proof.
  intros Hin Ht. unfold Compat.get_city_bounds, Compat.get_current_city_name, with_new_manager.
  rewrite (new_manager_saved_tuple m k c l Hin Ht).
  split; reflexivity.
Qed.

Lemma compat_queries_reset_saved_store_witness :
  let m := {| configs := [("fargo_nd", fargo)]; current_city := PStr "fargo_nd" |} in
  In ("fargo_nd", fargo) (configs m) /\
  typical_population_range (demographics fargo) = PTuple [PInt 5000; PInt 18000] /\
  fst (Compat.get_current_city_name (saved m)) = Ok (PStr "Grand Forks, ND").
Proof.
  intros m. split; [left; reflexivity|]. split; [reflexivity|].
  rewrite (proj2 (compat_queries_reset_saved_store m "fargo_nd" fargo [PInt 5000; PInt 18000]
                    (or_introl eq_refl) eq_refl)).
  reflexivity.
Defined.

(** X8: when get_current_config() on the manager built on the file returns
    None (an unhashable list or dict pointer raises TypeError instead, and
    that propagates), the module-level get_grid_points() returns exactly the grid of the
    seeded Grand Forks bounds, and the file is left as it was (the second
    manager built by get_city_bounds() loads the same store). *)
Theorem compat_get_grid_points_fallback (f : FS) :
  fst (with_new_manager get_current_config f) = Ok None ->
  Compat.get_grid_points f = (get_grid_points (bounds grand_forks), f).
Proof.
  intros H.
  destruct (new_manager_shape f) as [[w [Hn Hf]] | Hn].
  - destruct (get_current_config_run w) as [r Hr].
    assert (Hwm : with_new_manager get_current_config f = (r, f))
      by (unfold with_new_manager; rewrite Hn, Hr; cbn; rewrite Hf; reflexivity).
    rewrite Hwm in H. cbn [fst] in H. subst r.
    unfold Compat.get_grid_points. rewrite Hwm.
    unfold Compat.get_city_bounds, with_new_manager. rewrite Hn.
    unfold bind at 1. rewrite Hr. cbn [ret fs snd]. rewrite Hf. reflexivity.
  - unfold with_new_manager in H. rewrite Hn in H.
    destruct (writable f); vm_compute in H; discriminate.
Qed.

Lemma compat_get_grid_points_fallback_witness :
  let f := {| file := Some (Doc (YMap [("cities", YMap []); ("current_city", YNull)]));
              writable := true |} in
  fst (with_new_manager get_current_config f) = Ok None /\
  snd (Compat.get_grid_points f) = f.
Proof.
  intros f. split; [vm_compute; reflexivity|].
  rewrite (compat_get_grid_points_fallback f ltac:(vm_compute; reflexivity)). reflexivity.
Defined.

(** X9: once load_city_data(city_id) has returned data, later calls with
    the same city_id return that same data, whatever the cache files
    contain by then, and a failed load of another city (file missing or
    unreadable) returns None and keeps that cache. *)
Theorem load_city_data_keeps_loaded (pkl : PklFS) (cid : string)
  (self self' : EnhancedDataLoader) (d : pyval) :
  load_city_data pkl cid self = (d, self') -> d <> PNone ->
  (forall pkl', load_city_data pkl' cid self' = (d, self')) /\
  (forall pkl' b, b <> cid ->
     (pkl' (processed_data_file b) = None \/ exists e, pkl' (processed_data_file b) = Some (Err e)) ->
     load_city_data pkl' b self' = (PNone, self')).
Proof.
  intros H Hd. destruct (load_city_data_returned pkl cid self self' d H Hd) as [Hc [Hid Ht]].
  split.
  - intros pkl'. unfold load_city_data. rewrite Hid, Hc, Ht. reflexivity.
  - intros pkl' b Hb Hp. unfold load_city_data.
    assert (Hne : py_eq_str (current_city_id self') b = false).
    { destruct (current_city_id self'); try discriminate. simpl in Hid |- *.
      apply String.eqb_eq in Hid. subst. apply String.eqb_neq. congruence. }
    rewrite Hne. simpl.
    destruct Hp as [-> | [e ->]]; reflexivity.
Qed.

Lemma load_city_data_keeps_loaded_witness :
  let data := PDict [("df_filtered", PList [PInt 1; PInt 2])] in
  let pkl := fun p => if String.eqb p (processed_data_file "fargo_nd") then Some (Ok data) else None in
  let self := {| city_manager := {| mgr := default_mgr; fs := saved default_mgr |};
                 current_data := PNone; current_city_id := PNone |} in
  fst (load_city_data pkl "fargo_nd" self) = data /\
  fst (load_city_data (fun _ => None) "fargo_nd" (snd (load_city_data pkl "fargo_nd" self))) = data.
Proof.
  intros data pkl self. split; [reflexivity|].
  destruct (load_city_data pkl "fargo_nd" self) as [d s'] eqn:H.
  assert (Hd : d = data) by (vm_compute in H; injection H as <- _; reflexivity).
  subst d. cbn [snd fst].
  rewrite (proj1 (load_city_data_keeps_loaded pkl "fargo_nd" self s' data H ltac:(discriminate))
             (fun _ => None)).
  reflexivity.
Defined.

(** X10: when the city is not already cached and its pickle loads to an
    object for which data['df_filtered'] raises (no such key, or an object
    that is not a mapping) or len(data['df_filtered']) raises,
    load_city_data returns None, yet the object is already cached: the
    next call for the same city returns it (when it is truthy), even if
    the file is gone by then. *)
Theorem load_city_data_caches_rejected (pkl : PklFS) (cid : string) (self : EnhancedDataLoader)
  (data : pyval) (e : exn) :
  (py_eq_str (current_city_id self) cid && py_truthy (current_data self)) = false ->
  pkl (processed_data_file cid) = Some (Ok data) ->
  (py_getitem data "df_filtered" = Err e \/
   exists df, py_getitem data "df_filtered" = Ok df /\ py_len df = Err e) ->
  py_truthy data = true ->
  fst (load_city_data pkl cid self) = PNone /\
  (forall pkl', fst (load_city_data pkl' cid (snd (load_city_data pkl cid self))) = data).
Proof.
  intros Hc Hp Hdf Ht.
  assert (He : (df <-? py_getitem data "df_filtered" ;; py_len df) = Err e).
  { destruct Hdf as [Hg | [df [Hg Hl]]]; rewrite Hg; [reflexivity | exact Hl]. }
  assert (H1 : load_city_data pkl cid self =
                 (PNone, {| city_manager := city_manager self; current_data := data;
                            current_city_id := PStr cid |}))
    by (unfold load_city_data; rewrite Hc, Hp, He; reflexivity).
  rewrite H1. split; [reflexivity|].
  intros pkl'. unfold load_city_data. cbn [snd current_city_id current_data].
  rewrite py_eq_str_refl, Ht. reflexivity.
Qed.

Lemma load_city_data_caches_rejected_witness :
  let self := {| city_manager := {| mgr := default_mgr; fs := saved default_mgr |};
                 current_data := PNone; current_city_id := PNone |} in
  let data1 := PDict [("metrics", PDict [])] in
  let pkl1 := fun p => if String.eqb p (processed_data_file "fargo_nd") then Some (Ok data1) else None in
  let data2 := PDict [("df_filtered", PInt 3)] in
  let pkl2 := fun p => if String.eqb p (processed_data_file "fargo_nd") then Some (Ok data2) else None in
  py_getitem data1 "df_filtered" = Err KeyError /\
  fst (load_city_data pkl1 "fargo_nd" self) = PNone /\
  fst (load_city_data (fun _ => None) "fargo_nd" (snd (load_city_data pkl1 "fargo_nd" self))) = data1 /\
  py_len (PInt 3) = Err TypeError /\
  fst (load_city_data pkl2 "fargo_nd" self) = PNone /\
  fst (load_city_data (fun _ => None) "fargo_nd" (snd (load_city_data pkl2 "fargo_nd" self))) = data2.
Proof.
  intros self data1 pkl1 data2 pkl2.
  destruct (load_city_data_caches_rejected pkl1 "fargo_nd" self data1 KeyError
              eq_refl eq_refl (or_introl eq_refl) eq_refl) as [H1 H2].
  destruct (load_city_data_caches_rejected pkl2 "fargo_nd" self data2 TypeError
              eq_refl eq_refl (or_intror (ex_intro _ (PInt 3) (conj eq_refl eq_refl))) eq_refl)
    as [H3 H4].
  split; [reflexivity|]. split; [exact H1|]. split; [apply H2|].
  split; [reflexivity|]. split; [exact H3 | apply H4].
Defined.

(** X11: get_available_cities() never raises on a store with unique keys;
    it returns one entry per configured city whose processed cache file
    exists, in list_cities() order, holding that city's id, its
    display_name and the file's path. *)
Theorem get_available_cities_entries (pkl : PklFS) (self : EnhancedDataLoader) :
  NoDup (dict_keys (configs (mgr (city_manager self)))) ->
  get_available_cities pkl self =
    Ok (map (fun kc => available_entry (fst kc) (snd kc))
            (filter (fun kc => path_exists pkl (processed_data_file (fst kc)))
                    (configs (mgr (city_manager self))))).
Proof.
  intros Hnd. unfold get_available_cities, bind at 1. rewrite list_cities_run.
  cbv beta iota. rewrite (collect_available_nodup pkl (city_manager self) _ Hnd (fun kc H => H)).
  reflexivity.
Qed.

Lemma get_available_cities_entries_witness :
  let pkl := fun p => if String.eqb p (processed_data_file "bismarck_nd") then Some (Ok PNone) else None in
  let self := {| city_manager := {| mgr := default_mgr; fs := saved default_mgr |};
                 current_data := PNone; current_city_id := PNone |} in
  NoDup (dict_keys (configs (mgr (city_manager self)))) /\
  get_available_cities pkl self = Ok [available_entry "bismarck_nd" bismarck].
Proof.
  intros pkl self.
  assert (Hnd : NoDup (dict_keys (configs (mgr (city_manager self)))))
    by (repeat constructor; simpl; intuition discriminate).
  split; [exact Hnd|].
  rewrite (get_available_cities_entries pkl self Hnd). reflexivity.
Defined.

(** X12: at import, once the manager is built, the app starts on the first
    configured city (in list_cities() order) that has a processed cache
    file, if loading that file gives data; it exits when no city has a
    file, and also when that first city's file does not load, even if a
    later city's would. *)
Theorem app_startup_first_available (f : FS) (pkl : PklFS) (w : World) :
  new_manager f = (Ok tt, w) -> NoDup (dict_keys (configs (mgr w))) ->
  let loader := {| city_manager := w; current_data := PNone; current_city_id := PNone |} in
  match filter (fun kc => path_exists pkl (processed_data_file (fst kc))) (configs (mgr w)) with
  | [] => app_startup f pkl = Exit1
  | (k, _) :: _ =>
      app_startup f pkl =
        let '(d, loader') := load_city_data pkl k loader in
        if py_truthy d then Started k d loader' else Exit1
  end.
Proof.
  intros Hn Hnd loader.
  assert (Hl : new_loader f = Ok loader) by (unfold new_loader; rewrite Hn; reflexivity).
  assert (Ha := get_available_cities_entries pkl loader Hnd).
  unfold app_startup. rewrite Hl, Ha. change (city_manager loader) with w.
  destruct (filter _ (configs (mgr w))) as [|[k v] t]; [reflexivity|].
  cbn [map fst snd available_entry py_getitem dict_get].
  reflexivity.
Qed.

Lemma app_startup_first_available_witness :
  let f := {| file := None; writable := true |} in
  let good := PDict [("df_filtered", PList [PInt 1])] in
  let pkl := fun p =>
    if String.eqb p (processed_data_file "grand_forks_nd") then Some (Err ValueError)
    else if String.eqb p (processed_data_file "fargo_nd") then Some (Ok good) else None in
  new_manager f = (Ok tt, {| mgr := default_mgr; fs := saved default_mgr |}) /\
  NoDup (dict_keys (configs default_mgr)) /\
  app_startup f pkl = Exit1.
Proof.
  intros f good pkl.
  assert (Hn : new_manager f = (Ok tt, {| mgr := default_mgr; fs := saved default_mgr |}))
    by reflexivity.
  assert (Hnd : NoDup (dict_keys (configs default_mgr)))
    by (repeat constructor; simpl; intuition discriminate).
  split; [exact Hn|]. split; [exact Hnd|].
  exact (app_startup_first_available f pkl _ Hn Hnd).
Defined.

(** X13: for float columns, update_city_data raises ValueError (at int()
    of the maximum) when every value of the predicted_revenue column is
    NaN, whatever its length (vacuously so when it is empty, e.g. an empty
    df_filtered); and likewise when int() of the revenue maximum succeeds
    and every value of the commercial_traffic_score column is NaN. *)
Theorem update_city_data_sliders_no_values (revenue traffic : list float) :
  (forallb PrimFloat.is_nan revenue = true \/
   ((exists z, py_int_of_float (series_max revenue) = Ok z) /\
    forallb PrimFloat.is_nan traffic = true)) ->
  update_city_data_sliders revenue traffic = Err ValueError.
Proof.
  unfold update_city_data_sliders.
  intros [Hr | [[z Hz] Ht]].
  - rewrite (series_max_all_nan _ Hr). reflexivity.
  - rewrite Hz. cbn [res_bind]. rewrite (series_max_all_nan _ Ht). reflexivity.
Qed.

Lemma update_city_data_sliders_no_values_witness :
  forallb PrimFloat.is_nan [nan; nan] = true /\
  update_city_data_sliders [nan; nan] [1.5%float] = Err ValueError /\
  py_int_of_float (series_max [2.5%float; nan]) = Ok 2%Z /\
  update_city_data_sliders [2.5%float; nan] [nan; nan; nan] = Err ValueError.
Proof.
  split; [reflexivity|]. split.
  { exact (update_city_data_sliders_no_values [nan; nan] [1.5%float] (or_introl eq_refl)). }
  split; [reflexivity|].
  exact (update_city_data_sliders_no_values [2.5%float; nan] [nan; nan; nan]
           (or_intror (conj (ex_intro _ 2%Z eq_refl) eq_refl))).
Defined.

(** X14: for a maximum revenue of at least 4 the revenue slider gets five
    marks, at 0, max//4, max//2, 3*max//4 and max, in strictly increasing
    order. *)
Theorem revenue_marks_five (max_revenue : Z) :
  (4 <= max_revenue)%Z ->
  map fst (revenue_marks max_revenue) =
    [0; max_revenue / 4; max_revenue / 2; 3 * max_revenue / 4; max_revenue]%Z /\
  (0 < max_revenue / 4 < max_revenue / 2)%Z /\
  (max_revenue / 2 < 3 * max_revenue / 4 < max_revenue)%Z.
Proof.
  intros Hm.
  pose proof (Z.div_mod max_revenue 4 ltac:(lia)).
  pose proof (Z.mod_pos_bound max_revenue 4 ltac:(lia)).
  pose proof (Z.div_mod max_revenue 2 ltac:(lia)).
  pose proof (Z.mod_pos_bound max_revenue 2 ltac:(lia)).
  pose proof (Z.div_mod (3 * max_revenue) 4 ltac:(lia)).
  pose proof (Z.mod_pos_bound (3 * max_revenue) 4 ltac:(lia)).
  assert (Hlo : (0 < max_revenue / 4 < max_revenue / 2)%Z) by (split; lia).
  assert (Hhi : (max_revenue / 2 < 3 * max_revenue / 4 < max_revenue)%Z) by (split; lia).
  split; [|split; assumption].
  unfold revenue_marks, dict_display. cbn [fold_left zdict_set fst snd].
  repeat (cbn [zdict_set];
          match goal with
          | |- context [Z.eqb ?a ?b] =>
              let E := fresh in
              assert (E : Z.eqb a b = false) by (apply Z.eqb_neq; lia); rewrite E; clear E
          end).
  reflexivity.
Qed.

Lemma revenue_marks_five_witness :
  (4 <= 125000)%Z /\ map fst (revenue_marks 125000) = [0; 31250; 62500; 93750; 125000]%Z.
Proof.
  split; [lia|]. exact (proj1 (revenue_marks_five 125000 ltac:(lia))).
Defined.

(** X15: for a maximum revenue from 0 to 3 the five marks collapse: the
    revenue slider's marks are exactly the integers 0 .. max. *)
Theorem revenue_marks_small (max_revenue : Z) :
  (0 <= max_revenue < 4)%Z ->
  map fst (revenue_marks max_revenue) = map Z.of_nat (seq 0 (S (Z.to_nat max_revenue))).
Proof.
  intros Hm.
  assert (Hc : max_revenue = 0%Z \/ max_revenue = 1%Z \/ max_revenue = 2%Z \/ max_revenue = 3%Z)
    by lia.
  destruct Hc as [-> | [-> | [-> | ->]]]; reflexivity.
Qed.

Lemma revenue_marks_small_witness :
  (0 <= 2 < 4)%Z /\ map fst (revenue_marks 2) = [0; 1; 2]%Z.
Proof.
  split; [lia|]. exact (revenue_marks_small 2 ltac:(lia)).
Defined.

(** X16: CityConfiguration.from_dict(config.to_dict()) rebuilds the
    configuration it started from, field for field, when every field value
    is plain data (None, int, float, str, and lists, tuples and str-keyed
    dicts of these, the values [pyval] represents; asdict copies them into
    equal values): asdict writes exactly the constructors' keyword names. *)
Theorem from_dict_to_dict (c : CityConfiguration) :
  from_dict (to_dict c) = Ok c.
Proof.
  destruct c as [cid dn [a b e g h i j] [p q r s] [t u v x y z] [k l n o]].
  reflexivity.
Qed.
